(** * Code Quality Analyzer: a shallow embedding of [analyzer.py]

    The development follows [class CodeQualityAnalyzer] method by method.

    - Python [str] is modelled by [string] (8-bit characters; the source
      text is taken to be ASCII).
    - Python [float] scores are modelled by exact rationals [Q]; every
      penalty and weight of the analyzer is a decimal constant.
    - The analyzer object [self] is an explicit state record threaded by a
      small state-and-exception monad [M]; attributes that [__init__] does
      not create are [None] until a method assigns them, and reading such an
      attribute raises [AttributeError], as in Python.
    - [ast.parse] and [inspect.cleandoc] belong to the Python standard
      library, not to the analyzer: they are section variables. *)

From Stdlib Require Import List String Ascii Bool Arith ZArith QArith Qround.
From Stdlib Require Import Lia Lqa Permutation DecimalString.
Import ListNotations.

#[local] Set Warnings "-register-all".

Local Open Scope string_scope.
Local Open Scope list_scope.
Local Open Scope Z_scope.

(** ** Python string primitives used by the analyzer *)

Module PyStr.

(** [str.isspace] on one ASCII character: TAB, LF, VT, FF, CR, FS, GS, RS,
    US and SPACE. *)
Definition isspace (c : ascii) : bool :=
  let n := nat_of_ascii c in
  ((9 <=? n) && (n <=? 13) || (28 <=? n) && (n <=? 32))%nat.

Fixpoint lstrip (s : string) : string :=
  match s with
  | String c s' => if isspace c then lstrip s' else s
  | EmptyString => EmptyString
  end.

(** Right strip: a character is kept when it is not white space or when
    something survives to its right. *)
Fixpoint rstrip (s : string) : string :=
  match s with
  | String c s' =>
      match rstrip s' with
      | EmptyString => if isspace c then EmptyString else String c EmptyString
      | r => String c r
      end
  | EmptyString => EmptyString
  end.

(** [s.strip()] *)
Definition strip (s : string) : string := rstrip (lstrip s).

(** Truth value of a string: [bool(s)] is [len(s) > 0]. *)
Definition truthy (s : string) : bool :=
  match s with EmptyString => false | _ => true end.

(** [s.startswith(p)] *)
Definition startswith (p s : string) : bool := String.prefix p s.

(** [len(s)] *)
Definition len (s : string) : Z := Z.of_nat (String.length s).

(** [s.split('\n')]: always at least one piece. *)
Fixpoint split_nl (s : string) : list string :=
  match s with
  | EmptyString => [EmptyString]
  | String c s' =>
      if Ascii.eqb c "010"%char then EmptyString :: split_nl s'
      else match split_nl s' with
           | piece :: rest => String c piece :: rest
           | [] => [String c EmptyString]
           end
  end.

Definition is_upper (c : ascii) : bool :=
  let n := nat_of_ascii c in ((65 <=? n) && (n <=? 90))%nat.

Definition is_lower (c : ascii) : bool :=
  let n := nat_of_ascii c in ((97 <=? n) && (n <=? 122))%nat.

Definition to_lower (c : ascii) : ascii :=
  if is_upper c then ascii_of_nat (nat_of_ascii c + 32) else c.

Fixpoint all_chars (p : ascii -> bool) (s : string) : bool :=
  match s with
  | EmptyString => true
  | String c s' => p c && all_chars p s'
  end.

Fixpoint any_char (p : ascii -> bool) (s : string) : bool :=
  match s with
  | EmptyString => false
  | String c s' => p c || any_char p s'
  end.

(** [s.islower()]: no cased character is upper case and there is at least
    one cased character. *)
Definition islower (s : string) : bool :=
  all_chars (fun c => negb (is_upper c)) s && any_char is_lower s.

(** [str(n)] for an [int]. *)
Definition of_Z (n : Z) : string := NilZero.string_of_int (Z.to_int n).

(** [os.path.basename] on a POSIX path: what follows the last slash. *)
Fixpoint basename (p : string) : string :=
  match p with
  | EmptyString => EmptyString
  | String c p' =>
      if any_char (Ascii.eqb "/"%char) p then
        (if Ascii.eqb c "/"%char
         then (if any_char (Ascii.eqb "/"%char) p' then basename p' else p')
         else basename p')
      else p
  end.

End PyStr.

(** ** The [re] patterns of the secret scan

    Every pattern of [secret_patterns] is a concatenation of one-character
    atoms, some of them starred; [re.search] asks whether some substring of
    the line matches, so greedy and lazy matching agree. *)

Module Re.

Inductive atom : Type :=
| Lit (c : ascii)      (* a literal character; re.IGNORECASE folds case *)
| Space                (* \s *)
| Quote                (* a double or a single quote *)
| Dot.                 (* . : anything but a newline *)

Inductive item : Type :=
| One (a : atom)
| Star (a : atom).

Definition pattern := list item.

Definition atom_matches (a : atom) (c : ascii) : bool :=
  match a with
  | Lit l => Ascii.eqb (PyStr.to_lower l) (PyStr.to_lower c)
  | Space => PyStr.isspace c
  | Quote => Ascii.eqb c "034"%char || Ascii.eqb c "039"%char
  | Dot => negb (Ascii.eqb c "010"%char)
  end.

(** Does a prefix of [s] match [p]? *)
Fixpoint match_here (p : pattern) : string -> bool :=
  match p with
  | [] => fun _ => true
  | One a :: p' =>
      fun s => match s with
               | String c s' => atom_matches a c && match_here p' s'
               | EmptyString => false
               end
  | Star a :: p' =>
      fix star (s : string) : bool :=
        match_here p' s ||
        match s with
        | String c s' => atom_matches a c && star s'
        | EmptyString => false
        end
  end.

(** [re.search(p, s, re.IGNORECASE) is not None] *)
Fixpoint search (p : pattern) (s : string) : bool :=
  match_here p s ||
  match s with
  | String _ s' => search p s'
  | EmptyString => false
  end.

Fixpoint lit (s : string) : pattern :=
  match s with
  | EmptyString => []
  | String c s' => One (Lit c) :: lit s'
  end.

End Re.

(** ** The syntax tree of the [ast] module

    Python's tree is dynamically typed: every node is an [ast.AST] and the
    analyzer discriminates with [isinstance].  One constructor per node class
    the analyzer looks at, with the fields in the order of the class's
    [_fields]; [Other] stands for every remaining class (Return, Assign, If,
    With, BinOp, ...), none of which any check inspects.  The context and
    operator singletons (Load, Store, Add, ...) carry no position and match
    no [isinstance] test of the analyzer; they are left out. *)

Inductive constant : Type :=
| CStr (s : string)
| CInt (n : Z)
| CNone
| CBool (b : bool)
| CEllipsis.

Inductive node : Type :=
| Module (body : list node)
| FunctionDef (name : string) (args : node) (body decorator_list : list node)
    (returns : option node) (lineno end_lineno : Z)
| AsyncFunctionDef (name : string) (args : node)
    (body decorator_list : list node)
    (returns : option node) (lineno end_lineno : Z)
| ClassDef (name : string) (bases keywords body decorator_list : list node)
    (lineno end_lineno : Z)
| For (target iter : node) (body orelse : list node) (lineno : Z)
| AsyncFor (target iter : node) (body orelse : list node) (lineno : Z)
| While (test : node) (body orelse : list node) (lineno : Z)
| Try (body handlers orelse finalbody : list node) (lineno : Z)
| ExceptHandler (type : option node) (name : option string)
    (body : list node) (lineno : Z)
| Expr (value : node) (lineno : Z)
| Call (func : node) (args keywords : list node) (lineno : Z)
| Attribute (value : node) (attr : string) (lineno : Z)
| Name (id : string) (lineno : Z)
| Constant (value : constant) (lineno : Z)
| arguments (posonlyargs args : list node) (vararg : option node)
    (kwonlyargs kw_defaults : list node) (kwarg : option node)
    (defaults : list node)
| arg (arg_name : string) (annotation : option node) (lineno : Z)
| Other (children : list node) (lineno : Z).

Definition opt_list {A : Type} (o : option A) : list A :=
  match o with Some x => [x] | None => [] end.

(** [ast.iter_child_nodes]: the direct children, field by field. *)
Definition iter_child_nodes (n : node) : list node :=
  match n with
  | Module body => body
  | FunctionDef _ args body decorator_list returns _ _
  | AsyncFunctionDef _ args body decorator_list returns _ _ =>
      args :: body ++ decorator_list ++ opt_list returns
  | ClassDef _ bases keywords body decorator_list _ _ =>
      bases ++ keywords ++ body ++ decorator_list
  | For target iter body orelse _
  | AsyncFor target iter body orelse _ =>
      target :: iter :: body ++ orelse
  | While test body orelse _ => test :: body ++ orelse
  | Try body handlers orelse finalbody _ =>
      body ++ handlers ++ orelse ++ finalbody
  | ExceptHandler type _ body _ => opt_list type ++ body
  | Expr value _ => [value]
  | Call func args keywords _ => func :: args ++ keywords
  | Attribute value _ _ => [value]
  | Name _ _ => []
  | Constant _ _ => []
  | arguments posonlyargs args vararg kwonlyargs kw_defaults kwarg defaults =>
      posonlyargs ++ args ++ opt_list vararg ++ kwonlyargs ++ kw_defaults
      ++ opt_list kwarg ++ defaults
  | arg _ annotation _ => opt_list annotation
  | Other children _ => children
  end.

(** Every node of a tree, parents before children (depth first).  This is
    the reference enumeration of "the nodes of the tree". *)
Fixpoint preorder (n : node) : list node :=
  let pl := fix pl (l : list node) : list node :=
              match l with
              | [] => []
              | c :: r => preorder c ++ pl r
              end in
  let po := fun o : option node =>
              match o with Some c => preorder c | None => [] end in
  n ::
  match n with
  | Module body => pl body
  | FunctionDef _ args body decorator_list returns _ _
  | AsyncFunctionDef _ args body decorator_list returns _ _ =>
      preorder args ++ pl body ++ pl decorator_list ++ po returns
  | ClassDef _ bases keywords body decorator_list _ _ =>
      pl bases ++ pl keywords ++ pl body ++ pl decorator_list
  | For target iter body orelse _
  | AsyncFor target iter body orelse _ =>
      preorder target ++ preorder iter ++ pl body ++ pl orelse
  | While test body orelse _ => preorder test ++ pl body ++ pl orelse
  | Try body handlers orelse finalbody _ =>
      pl body ++ pl handlers ++ pl orelse ++ pl finalbody
  | ExceptHandler type _ body _ => po type ++ pl body
  | Expr value _ => preorder value
  | Call func args keywords _ => preorder func ++ pl args ++ pl keywords
  | Attribute value _ _ => preorder value
  | Name _ _ => []
  | Constant _ _ => []
  | arguments posonlyargs args vararg kwonlyargs kw_defaults kwarg defaults =>
      pl posonlyargs ++ pl args ++ po vararg ++ pl kwonlyargs
      ++ pl kw_defaults ++ po kwarg ++ pl defaults
  | arg _ annotation _ => po annotation
  | Other children _ => pl children
  end.

(** [ast.walk]: breadth first, with a queue.  The loop [while todo] is
    bounded by the number of nodes of the tree. *)
Fixpoint walk_queue (fuel : nat) (todo : list node) : list node :=
  match fuel with
  | O => []
  | S fuel' =>
      match todo with
      | [] => []
      | n :: rest => n :: walk_queue fuel' (rest ++ iter_child_nodes n)
      end
  end.

Definition walk (n : node) : list node :=
  walk_queue (List.length (preorder n)) [n].

(** ** Reports, issues, metrics and scores *)

(** The keys of [self.issues] and of [self.scores]. *)
Inductive Severity : Type := Critical | High | Medium | Low.

Inductive Category : Type :=
| Structure | ErrorHandling | Performance | Security | Maintainability
| BestPractices.

(** One finding.  [line] is optional because [SyntaxError.lineno] may be
    [None]. *)
Record Issue : Type := mkIssue {
  line : option Z;
  issue : string;
  description : string;
  severity : string
}.

Record Issues : Type := mkIssues {
  critical : list Issue;
  high : list Issue;
  medium : list Issue;
  low : list Issue
}.

Record Metrics : Type := mkMetrics {
  lines_of_code : Z;
  comment_lines : Z;
  blank_lines : Z;
  functions : Z;
  classes : Z;
  complexity : Z;
  max_function_length : Z;
  avg_function_length : Q
}.

Record Scores : Type := mkScores {
  structure : Q;
  error_handling : Q;
  performance : Q;
  security : Q;
  maintainability : Q;
  best_practices : Q
}.

Definition issues_get (d : Issues) (k : Severity) : list Issue :=
  match k with
  | Critical => critical d
  | High => high d
  | Medium => medium d
  | Low => low d
  end.

(** [d[k].append(i)] *)
Definition issues_append (k : Severity) (i : Issue) (d : Issues) : Issues :=
  match k with
  | Critical => mkIssues (critical d ++ [i]) (high d) (medium d) (low d)
  | High => mkIssues (critical d) (high d ++ [i]) (medium d) (low d)
  | Medium => mkIssues (critical d) (high d) (medium d ++ [i]) (low d)
  | Low => mkIssues (critical d) (high d) (medium d) (low d ++ [i])
  end.

Definition scores_get (d : Scores) (k : Category) : Q :=
  match k with
  | Structure => structure d
  | ErrorHandling => error_handling d
  | Performance => performance d
  | Security => security d
  | Maintainability => maintainability d
  | BestPractices => best_practices d
  end.

(** [d[k] = v] *)
Definition scores_set (k : Category) (v : Q) (d : Scores) : Scores :=
  match k with
  | Structure =>
      mkScores v (error_handling d) (performance d) (security d)
        (maintainability d) (best_practices d)
  | ErrorHandling =>
      mkScores (structure d) v (performance d) (security d)
        (maintainability d) (best_practices d)
  | Performance =>
      mkScores (structure d) (error_handling d) v (security d)
        (maintainability d) (best_practices d)
  | Security =>
      mkScores (structure d) (error_handling d) (performance d) v
        (maintainability d) (best_practices d)
  | Maintainability =>
      mkScores (structure d) (error_handling d) (performance d) (security d)
        v (best_practices d)
  | BestPractices =>
      mkScores (structure d) (error_handling d) (performance d) (security d)
        (maintainability d) v
  end.

(** [d.items()], in insertion order (the order of [__init__]). *)
Definition scores_items (d : Scores) : list (Category * Q) :=
  map (fun k => (k, scores_get d k))
    [Structure; ErrorHandling; Performance; Security; Maintainability;
     BestPractices].

(** The dictionary returned by [generate_report]. *)
Module Report.
Record t : Type := mk {
  file : string;
  overall_score : Q;
  category_scores : Scores;
  metrics : Metrics;
  issues : Issues;
  total_issues : Z
}.
End Report.

(** ** Numbers *)

Local Open Scope Q_scope.

(** [max(0, score)]: the first argument wins a tie. *)
Definition max0 (score : Q) : Q := if Qle_bool score 0 then 0 else score.

(** Rounding to the nearest integer, ties to even: [round] and the format
    [.0f]. *)
Definition round_half_even (x : Q) : Z :=
  let f := Qfloor x in
  match Qcompare (x - inject_Z f) (1 # 2) with
  | Lt => f
  | Gt => (f + 1)%Z
  | Eq => if Z.even f then f else (f + 1)%Z
  end.

(** [round(x, 1)] *)
Definition round1 (x : Q) : Q := round_half_even (x * 10) # 10.

(** The f-string conversion [{x:.0f}]. *)
Definition format_0f (x : Q) : string := PyStr.of_Z (round_half_even x).

Local Close Scope Q_scope.

(** ** The analyzer object and the monad of its methods *)

Inductive exn : Type :=
| AttributeError (attribute : string).

(** What [ast.parse] raises on malformed source: [e.lineno] and [str(e)]. *)
Record SyntaxError : Type := mkSyntaxError {
  err_lineno : option Z;
  err_str : string
}.

Record Analyzer : Type := mkAnalyzer {
  file_path : string;
  file_name : string;
  issues : Issues;
  metrics : Metrics;
  scores : Scores;
  (* attributes assigned outside __init__ *)
  code : option string;
  lines : option (list string);
  tree : option node;
  overall_score : option Q
}.

(** [CodeQualityAnalyzer.__init__] *)
Definition __init__ (path : string) : Analyzer :=
  {| file_path := path;
     file_name := PyStr.basename path;
     issues := mkIssues [] [] [] [];
     metrics := mkMetrics 0 0 0 0 0 0 0 0%Q;
     scores := mkScores 0%Q 0%Q 0%Q 0%Q 0%Q 0%Q;
     code := None;
     lines := None;
     tree := None;
     overall_score := None |}.

Definition with_issues (f : Issues -> Issues) (a : Analyzer) : Analyzer :=
  mkAnalyzer (file_path a) (file_name a) (f (issues a)) (metrics a) (scores a)
    (code a) (lines a) (tree a) (overall_score a).

Definition with_metrics (f : Metrics -> Metrics) (a : Analyzer) : Analyzer :=
  mkAnalyzer (file_path a) (file_name a) (issues a) (f (metrics a)) (scores a)
    (code a) (lines a) (tree a) (overall_score a).

Definition with_scores (f : Scores -> Scores) (a : Analyzer) : Analyzer :=
  mkAnalyzer (file_path a) (file_name a) (issues a) (metrics a) (f (scores a))
    (code a) (lines a) (tree a) (overall_score a).

Definition with_code (c : string) (a : Analyzer) : Analyzer :=
  mkAnalyzer (file_path a) (file_name a) (issues a) (metrics a) (scores a)
    (Some c) (lines a) (tree a) (overall_score a).

Definition with_lines (l : list string) (a : Analyzer) : Analyzer :=
  mkAnalyzer (file_path a) (file_name a) (issues a) (metrics a) (scores a)
    (code a) (Some l) (tree a) (overall_score a).

Definition with_tree (t : node) (a : Analyzer) : Analyzer :=
  mkAnalyzer (file_path a) (file_name a) (issues a) (metrics a) (scores a)
    (code a) (lines a) (Some t) (overall_score a).

Definition with_overall_score (s : Q) (a : Analyzer) : Analyzer :=
  mkAnalyzer (file_path a) (file_name a) (issues a) (metrics a) (scores a)
    (code a) (lines a) (tree a) (Some s).

(** A method: it may raise, and it leaves [self] as it was at that point. *)
Definition M (A : Type) : Type := Analyzer -> (exn + A) * Analyzer.

Definition ret {A : Type} (x : A) : M A := fun self => (inr x, self).

Definition bind {A B : Type} (m : M A) (k : A -> M B) : M B :=
  fun self =>
    match m self with
    | (inr x, self') => k x self'
    | (inl e, self') => (inl e, self')
    end.

Declare Scope py_scope.
Delimit Scope py_scope with py.
Notation "x <- m ;; k" := (bind m (fun x => k))
  (at level 61, m at next level, right associativity) : py_scope.
Notation "' pat <- m ;; k" := (bind m (fun x => match x with pat => k end))
  (at level 61, pat pattern, m at next level, right associativity) : py_scope.
Notation "m ;; k" := (bind m (fun _ => k))
  (at level 61, right associativity) : py_scope.
Local Open Scope py_scope.

Definition gets {A : Type} (f : Analyzer -> A) : M A :=
  fun self => (inr (f self), self).

Definition modify (f : Analyzer -> Analyzer) : M unit :=
  fun self => (inr tt, f self).

(** Reading an attribute that may not have been assigned yet. *)
Definition getattr {A : Type} (name : string) (f : Analyzer -> option A)
  : M A :=
  fun self =>
    match f self with
    | Some x => (inr x, self)
    | None => (inl (AttributeError name), self)
    end.

(** [for x in xs: body], with the local variables of the loop in [acc]. *)
Fixpoint for_loop {A S : Type} (xs : list A) (body : S -> A -> M S) (acc : S)
  : M S :=
  match xs with
  | [] => ret acc
  | x :: xs' => acc' <- body acc x ;; for_loop xs' body acc'
  end.

(** [self.issues[k].append({...})] *)
Definition append_issue (k : Severity) (i : Issue) : M unit :=
  modify (with_issues (issues_append k i)).

(** [self.scores[k] = v] *)
Definition set_score (k : Category) (v : Q) : M unit :=
  modify (with_scores (scores_set k v)).

(** Field updates of [self.metrics]. *)
Definition set_lines_of_code (v : Z) (m : Metrics) : Metrics :=
  mkMetrics v (comment_lines m) (blank_lines m) (functions m) (classes m)
    (complexity m) (max_function_length m) (avg_function_length m).

Definition incr_comment_lines (m : Metrics) : Metrics :=
  mkMetrics (lines_of_code m) (comment_lines m + 1) (blank_lines m)
    (functions m) (classes m) (complexity m) (max_function_length m)
    (avg_function_length m).

Definition incr_blank_lines (m : Metrics) : Metrics :=
  mkMetrics (lines_of_code m) (comment_lines m) (blank_lines m + 1)
    (functions m) (classes m) (complexity m) (max_function_length m)
    (avg_function_length m).

Definition incr_functions (m : Metrics) : Metrics :=
  mkMetrics (lines_of_code m) (comment_lines m) (blank_lines m)
    (functions m + 1) (classes m) (complexity m) (max_function_length m)
    (avg_function_length m).

Definition incr_classes (m : Metrics) : Metrics :=
  mkMetrics (lines_of_code m) (comment_lines m) (blank_lines m)
    (functions m) (classes m + 1) (complexity m) (max_function_length m)
    (avg_function_length m).

Definition set_function_lengths (mx : Z) (avg : Q) (m : Metrics) : Metrics :=
  mkMetrics (lines_of_code m) (comment_lines m) (blank_lines m)
    (functions m) (classes m) (complexity m) mx avg.

(** A [dict] from strings to counts, in insertion order. *)
Fixpoint dict_get (d : list (string * Z)) (k : string) (default : Z) : Z :=
  match d with
  | [] => default
  | (k', v) :: d' => if String.eqb k' k then v else dict_get d' k default
  end.

Fixpoint dict_set (d : list (string * Z)) (k : string) (v : Z)
  : list (string * Z) :=
  match d with
  | [] => [(k, v)]
  | (k', v') :: d' =>
      if String.eqb k' k then (k', v) :: d' else (k', v') :: dict_set d' k v
  end.

(** [enumerate(xs, start)] *)
Fixpoint enumerate {A : Type} (xs : list A) (start : Z) : list (Z * A) :=
  match xs with
  | [] => []
  | x :: xs' => (start, x) :: enumerate xs' (start + 1)
  end.

Definition Qltb (x y : Q) : bool := negb (Qle_bool y x).

(** [max(xs)] and [sum(xs)] on a list of integers. *)
Definition list_max_Z (xs : list Z) : Z :=
  match xs with
  | [] => 0
  | x :: xs' => fold_left Z.max xs' x
  end.

Definition list_sum_Z (xs : list Z) : Z := fold_left Z.add xs 0.

Definition is_FunctionDef (n : node) : bool :=
  match n with FunctionDef _ _ _ _ _ _ _ => true | _ => false end.

Definition is_ClassDef (n : node) : bool :=
  match n with ClassDef _ _ _ _ _ _ _ => true | _ => false end.

Definition is_Try (n : node) : bool :=
  match n with Try _ _ _ _ _ => true | _ => false end.

Definition is_For (n : node) : bool :=
  match n with For _ _ _ _ _ => true | _ => false end.

(** [isinstance(node, ast.ExceptHandler) and node.type is None] *)
Definition is_bare_except (n : node) : bool :=
  match n with ExceptHandler None _ _ _ => true | _ => false end.

(** The test of the generator in [_analyze_performance]: an expression
    statement whose value is a call of an attribute named [append]. *)
Definition is_append_stmt (child : node) : bool :=
  match child with
  | Expr (Call (Attribute _ attr _) _ _ _) _ => String.eqb attr "append"
  | _ => false
  end.

(** A call of the bare name [eval] or [exec]: the name, if so. *)
Definition dangerous_call (n : node) : option string :=
  match n with
  | Call (Name id _) _ _ _ =>
      if String.eqb id "eval" || String.eqb id "exec" then Some id else None
  | _ => None
  end.

(** [node.returns or any(arg.annotation for arg in node.args.args)] for a
    function definition.  Only the plain positional parameters [args.args]
    are looked at.  (In a tree built by [ast.parse] the [args] field is
    always an [arguments] node whose [args] are [arg] nodes.) *)
Definition has_type_hints (returns : option node) (args : node) : bool :=
  match returns with
  | Some _ => true
  | None =>
      match args with
      | arguments _ plain _ _ _ _ _ =>
          existsb (fun a => match a with
                            | arg _ (Some _) _ => true
                            | _ => false
                            end) plain
      | _ => false
      end
  end.

(** [secret_patterns] of [_analyze_security]. *)
Definition assignment_of_quoted : Re.pattern :=
  [Re.Star Re.Space; Re.One (Re.Lit "="%char); Re.Star Re.Space;
   Re.One Re.Quote; Re.Star Re.Dot; Re.One Re.Quote].

Definition secret_patterns : list Re.pattern :=
  [Re.lit "password" ++ assignment_of_quoted;
   Re.lit "api_key" ++ assignment_of_quoted;
   Re.lit "secret" ++ assignment_of_quoted;
   Re.lit "token" ++ assignment_of_quoted].

(** [weights] of [_calculate_scores], in the order of the literal. *)
Definition weights : list (Category * Q) :=
  [(Structure, 0.20%Q); (ErrorHandling, 0.20%Q); (Performance, 0.15%Q);
   (Security, 0.15%Q); (Maintainability, 0.15%Q); (BestPractices, 0.15%Q)].

(** ** The methods of [CodeQualityAnalyzer] *)

Section Analyzer.

(** [ast.parse]: a tree, or the [SyntaxError] it raises. *)
Variable parse : string -> SyntaxError + node.

(** [inspect.cleandoc], applied by [ast.get_docstring]. *)
Variable cleandoc : string -> string.

(** [ast.get_docstring(node)]: the cleaned first statement of the body when
    it is a string constant, else [None]. *)
Definition get_docstring (body : list node) : option string :=
  match body with
  | Expr (Constant (CStr text) _) _ :: _ => Some (cleandoc text)
  | _ => None
  end.

(** [if ast.get_docstring(node)] *)
Definition has_docstring (body : list node) : bool :=
  match get_docstring body with
  | Some doc => PyStr.truthy doc
  | None => false
  end.

Definition _analyze_metrics : M unit :=
  ls <- getattr "lines" lines ;;
  modify (with_metrics (set_lines_of_code (Z.of_nat (List.length ls)))) ;;
  for_loop ls (fun _ line =>
    let stripped := PyStr.strip line in
    if negb (PyStr.truthy stripped) then
      modify (with_metrics incr_blank_lines)
    else if PyStr.startswith "#" stripped then
      modify (with_metrics incr_comment_lines)
    else ret tt) tt ;;
  t <- getattr "tree" tree ;;
  for_loop (walk t) (fun _ node =>
    match node with
    | FunctionDef _ _ _ _ _ _ _ => modify (with_metrics incr_functions)
    | ClassDef _ _ _ _ _ _ _ => modify (with_metrics incr_classes)
    | _ => ret tt
    end) tt.

Definition _check_duplication : M bool :=
  ls <- getattr "lines" lines ;;
  let line_counts :=
    fold_left (fun line_counts line =>
      let stripped := PyStr.strip line in
      if PyStr.truthy stripped && negb (PyStr.startswith "#" stripped)
         && (20 <? PyStr.len stripped)
      then dict_set line_counts stripped (dict_get line_counts stripped 0 + 1)
      else line_counts) ls [] in
  ret (existsb (fun kv => 2 <? snd kv) line_counts).

Definition _analyze_structure : M unit :=
  t <- getattr "tree" tree ;;
  '(score, function_lengths) <-
    for_loop (walk t) (fun '(score, function_lengths) node =>
      match node with
      | FunctionDef name _ _ _ _ lineno end_lineno =>
          let length := end_lineno - lineno in
          let function_lengths := function_lengths ++ [length] in
          if 100 <? length then
            append_issue High
              (mkIssue (Some lineno) "Long Function"
                 ("Function '" ++ name ++ "' is " ++ PyStr.of_Z length
                  ++ " lines (>100)")%string
                 "HIGH") ;;
            ret ((score - 1.0)%Q, function_lengths)
          else if 50 <? length then
            append_issue Medium
              (mkIssue (Some lineno) "Long Function"
                 ("Function '" ++ name ++ "' is " ++ PyStr.of_Z length
                  ++ " lines (>50)")%string
                 "MEDIUM") ;;
            ret ((score - 0.5)%Q, function_lengths)
          else ret (score, function_lengths)
      | _ => ret (score, function_lengths)
      end) (10.0%Q, []) ;;
  match function_lengths with
  | [] => ret tt
  | _ :: _ =>
      modify (with_metrics
        (set_function_lengths (list_max_Z function_lengths)
           (inject_Z (list_sum_Z function_lengths)
            / inject_Z (Z.of_nat (List.length function_lengths)))%Q))
  end ;;
  duplicated <- _check_duplication ;;
  score <- (if duplicated : bool then
              append_issue Medium
                (mkIssue (Some 0) "Code Duplication"
                   "Potential code duplication detected" "MEDIUM") ;;
              ret (score - 1.0)%Q
            else ret score) ;;
  set_score Structure (max0 score).

Definition _analyze_error_handling : M unit :=
  t <- getattr "tree" tree ;;
  score <-
    for_loop (walk t) (fun score node =>
      match node with
      | ExceptHandler None _ _ lineno =>
          append_issue High
            (mkIssue (Some lineno) "Bare Except Clause"
               "Using bare except: catches all exceptions including system exits"
               "HIGH") ;;
          ret (score - 2.0)%Q
      | _ => ret score
      end) 10.0%Q ;;
  t <- getattr "tree" tree ;;
  let try_count := Z.of_nat (List.length (filter is_Try (walk t))) in
  n_functions <- gets (fun self => functions (metrics self)) ;;
  score <- (if (try_count =? 0) && (0 <? n_functions) then
              append_issue Medium
                (mkIssue (Some 0) "No Error Handling"
                   "No try/except blocks found" "MEDIUM") ;;
              ret (score - 2.0)%Q
            else ret score) ;;
  set_score ErrorHandling (max0 score).

Definition _analyze_performance : M unit :=
  t <- getattr "tree" tree ;;
  score <-
    for_loop (walk t) (fun score node =>
      match node with
      | For _ _ _ _ lineno =>
          if existsb is_append_stmt (walk node) then
            append_issue Low
              (mkIssue (Some lineno) "List Comprehension Opportunity"
                 "Consider using list comprehension" "LOW") ;;
            ret (score - 0.3)%Q
          else ret score
      | _ => ret score
      end) 10.0%Q ;;
  set_score Performance (max0 score).

Definition _analyze_security : M unit :=
  ls <- getattr "lines" lines ;;
  score <-
    for_loop (enumerate ls 1) (fun score '(i, line) =>
      for_loop secret_patterns (fun score pattern =>
        if Re.search pattern line then
          append_issue Critical
            (mkIssue (Some i) "Hardcoded Secret"
               "Potential hardcoded secret found" "CRITICAL") ;;
          ret (score - 3.0)%Q
        else ret score) score) 10.0%Q ;;
  t <- getattr "tree" tree ;;
  score <-
    for_loop (walk t) (fun score node =>
      match node with
      | Call (Name id _) _ _ lineno =>
          if String.eqb id "eval" || String.eqb id "exec" then
            append_issue Critical
              (mkIssue (Some lineno) "Dangerous Function"
                 ("Use of " ++ id ++ "() is dangerous")%string "CRITICAL") ;;
            ret (score - 3.0)%Q
          else ret score
      | _ => ret score
      end) score ;;
  set_score Security (max0 score).

Definition _analyze_maintainability : M unit :=
  t <- getattr "tree" tree ;;
  let '(functions_with_docs, total_functions) :=
    fold_left (fun '(with_docs, total) node =>
      match node with
      | FunctionDef _ _ body _ _ _ _ =>
          (if has_docstring body then with_docs + 1 else with_docs, total + 1)
      | _ => (with_docs, total)
      end) (walk t) (0, 0) in
  let score := 10.0%Q in
  score <- (if 0 <? total_functions then
              let doc_coverage :=
                (inject_Z functions_with_docs / inject_Z total_functions
                 * 100)%Q in
              if Qltb doc_coverage 50 then
                append_issue Medium
                  (mkIssue (Some 0) "Low Documentation"
                     ("Only " ++ format_0f doc_coverage
                      ++ "% of functions have docstrings")%string "MEDIUM") ;;
                ret (score - 2.0)%Q
              else ret score
            else ret score) ;;
  t <- getattr "tree" tree ;;
  let functions_with_hints :=
    fold_left (fun with_hints node =>
      match node with
      | FunctionDef _ args _ _ returns _ _ =>
          if has_type_hints returns args then with_hints + 1 else with_hints
      | _ => with_hints
      end) (walk t) 0 in
  score <- (if 0 <? total_functions then
              let hint_coverage :=
                (inject_Z functions_with_hints / inject_Z total_functions
                 * 100)%Q in
              if Qltb hint_coverage 30 then
                append_issue Low
                  (mkIssue (Some 0) "Missing Type Hints"
                     ("Only " ++ format_0f hint_coverage
                      ++ "% of functions have type hints")%string "LOW") ;;
                ret (score - 1.0)%Q
              else ret score
            else ret score) ;;
  set_score Maintainability (max0 score).

Definition _analyze_best_practices : M unit :=
  t <- getattr "tree" tree ;;
  score <-
    for_loop (walk t) (fun score node =>
      match node with
      | Call (Name id _) _ _ lineno =>
          if String.eqb id "print" then
            append_issue Low
              (mkIssue (Some lineno) "Print Statement"
                 "Consider using logging instead of print()" "LOW") ;;
            ret (score - 0.2)%Q
          else ret score
      | _ => ret score
      end) 10.0%Q ;;
  t <- getattr "tree" tree ;;
  score <-
    for_loop (walk t) (fun score node =>
      match node with
      | FunctionDef name _ _ _ _ lineno _ =>
          if negb (PyStr.islower name) && negb (String.eqb name "__init__")
          then
            append_issue Low
              (mkIssue (Some lineno) "Naming Convention"
                 ("Function '" ++ name ++ "' should use snake_case")%string
                 "LOW") ;;
            ret (score - 0.3)%Q
          else ret score
      | _ => ret score
      end) score ;;
  set_score BestPractices (max0 score).

Definition _calculate_scores : M unit :=
  category_scores <- gets scores ;;
  modify (with_overall_score
    (fold_left (fun total '(category, weight) =>
       (total + scores_get category_scores category * weight)%Q)
       weights 0%Q)).

Definition generate_report : M Report.t :=
  name <- gets file_name ;;
  overall <- getattr "overall_score" overall_score ;;
  self <- gets (fun self => self) ;;
  ret (Report.mk name (round1 overall) (scores self) (metrics self)
         (issues self)
         (list_sum_Z
            (map (fun k => Z.of_nat (List.length (issues_get (issues self) k)))
               [Critical; High; Medium; Low]))).

(** [analyze], on the text that [f.read()] returned. *)
Definition analyze (source : string) : M Report.t :=
  modify (with_code source) ;;
  modify (with_lines (PyStr.split_nl source)) ;;
  match parse source with
  | inr t =>
      modify (with_tree t) ;;
      _analyze_metrics ;;
      _analyze_structure ;;
      _analyze_error_handling ;;
      _analyze_performance ;;
      _analyze_security ;;
      _analyze_maintainability ;;
      _analyze_best_practices ;;
      _calculate_scores ;;
      generate_report
  | inl e =>
      append_issue Critical
        (mkIssue (err_lineno e) "Syntax Error" (err_str e) "CRITICAL") ;;
      generate_report
  end.

(** [_get_rating] *)
Definition _get_rating (score : Q) : string :=
  if Qle_bool 9.0 score then "⭐⭐⭐⭐⭐"
  else if Qle_bool 7.0 score then "⭐⭐⭐⭐☆"
  else if Qle_bool 5.0 score then "⭐⭐⭐☆☆"
  else if Qle_bool 3.0 score then "⭐⭐☆☆☆"
  else "⭐☆☆☆☆".

Definition is_empty_list {A : Type} (l : list A) : bool :=
  match l with [] => true | _ :: _ => false end.

(** [print_report]: the star rating printed with the overall score, and the
    line of the production-readiness block.  The local variable [score] is
    assigned from the report, then it is the target of the loop over
    [category_scores.items()], then the readiness tests read it. *)
Definition print_report (report : Report.t) : string * string :=
  let score := Report.overall_score report in
  let rating := _get_rating score in
  let score :=
    fold_left (fun _ '(category, score) => score)
      (scores_items (Report.category_scores report)) score in
  let critical_issues := critical (Report.issues report) in
  (rating,
   if Qle_bool 9.0 score && is_empty_list critical_issues then
     "✅ PRODUCTION READY - Excellent code quality!"
   else if Qle_bool 7.0 score && is_empty_list critical_issues then
     "✅ PRODUCTION READY - Good code quality with minor improvements needed"
   else if negb (is_empty_list critical_issues) then
     "❌ NOT PRODUCTION READY - Critical issues must be fixed"
   else
     "⚠️  NEEDS IMPROVEMENT - Significant refactoring recommended").

(** The loop of [main]: a fresh analyzer per file; an exception that a
    method raises ends the program. *)
Fixpoint main_loop (files_to_analyze : list (string * string))
  : list Report.t * option exn :=
  match files_to_analyze with
  | [] => ([], None)
  | (path, source) :: rest =>
      match analyze source (__init__ path) with
      | (inr report, _) =>
          let '(reports, raised) := main_loop rest in
          (report :: reports, raised)
      | (inl e, _) => ([], Some e)
      end
  end.

End Analyzer.

(** ** What each method computes, as functions of the lines and the tree

    The methods above append to [self.issues] and subtract from a local
    [score] inside their loops.  The definitions below separate the two:
    for each method, the findings it appends (in detection order) and the
    score it reaches before the final [max(0, score)]. *)

Definition finding : Type := Severity * Issue.

Definition issues_extend (found : list finding) (d : Issues) : Issues :=
  fold_left (fun d f => issues_append (fst f) (snd f) d) found d.

(** The findings of one severity, in order. *)
Definition of_severity (k : Severity) (found : list finding) : list Issue :=
  flat_map (fun f => match fst f, k with
                     | Critical, Critical | High, High
                     | Medium, Medium | Low, Low => [snd f]
                     | _, _ => []
                     end) found.

(** [score -= c] when [p x] holds. *)
Definition penalize {A : Type} (p : A -> bool) (c : Q) (score : Q) (x : A)
  : Q :=
  if p x then (score - c)%Q else score.

Definition count_if {A : Type} (p : A -> bool) (xs : list A) : Z :=
  Z.of_nat (List.length (filter p xs)).

Section Findings.

Variable cleandoc : string -> string.

(** *** [_analyze_metrics] *)

Definition lines_step (m : Metrics) (line : string) : Metrics :=
  let stripped := PyStr.strip line in
  if negb (PyStr.truthy stripped) then incr_blank_lines m
  else if PyStr.startswith "#" stripped then incr_comment_lines m
  else m.

Definition defs_step (m : Metrics) (n : node) : Metrics :=
  match n with
  | FunctionDef _ _ _ _ _ _ _ => incr_functions m
  | ClassDef _ _ _ _ _ _ _ => incr_classes m
  | _ => m
  end.

Definition metrics_counted (ls : list string) (t : node) (m : Metrics)
  : Metrics :=
  fold_left defs_step (walk t)
    (fold_left lines_step ls
       (set_lines_of_code (Z.of_nat (List.length ls)) m)).

(** *** [_analyze_structure] *)

Definition duplicated (ls : list string) : bool :=
  existsb (fun kv => 2 <? snd kv)
    (fold_left (fun line_counts line =>
       let stripped := PyStr.strip line in
       if PyStr.truthy stripped && negb (PyStr.startswith "#" stripped)
          && (20 <? PyStr.len stripped)
       then dict_set line_counts stripped (dict_get line_counts stripped 0 + 1)
       else line_counts) ls []).

Definition structure_step (acc : Q * list Z) (n : node) : Q * list Z :=
  match n with
  | FunctionDef _ _ _ _ _ lineno end_lineno =>
      let length := end_lineno - lineno in
      if 100 <? length then ((fst acc - 1.0)%Q, snd acc ++ [length])
      else if 50 <? length then ((fst acc - 0.5)%Q, snd acc ++ [length])
      else (fst acc, snd acc ++ [length])
  | _ => acc
  end.

Definition structure_emit (n : node) : list finding :=
  match n with
  | FunctionDef name _ _ _ _ lineno end_lineno =>
      let length := end_lineno - lineno in
      if 100 <? length then
        [(High,
          mkIssue (Some lineno) "Long Function"
            ("Function '" ++ name ++ "' is " ++ PyStr.of_Z length
             ++ " lines (>100)")%string "HIGH")]
      else if 50 <? length then
        [(Medium,
          mkIssue (Some lineno) "Long Function"
            ("Function '" ++ name ++ "' is " ++ PyStr.of_Z length
             ++ " lines (>50)")%string "MEDIUM")]
      else []
  | _ => []
  end.

Definition duplication_findings (ls : list string) : list finding :=
  if duplicated ls then
    [(Medium,
      mkIssue (Some 0) "Code Duplication"
        "Potential code duplication detected" "MEDIUM")]
  else [].

Definition structure_findings (ls : list string) (t : node) : list finding :=
  flat_map structure_emit (walk t) ++ duplication_findings ls.

Definition structure_raw (ls : list string) (t : node) : Q :=
  let score := fst (fold_left structure_step (walk t) (10.0%Q, [])) in
  if duplicated ls then (score - 1.0)%Q else score.

Definition structure_metrics (t : node) (m : Metrics) : Metrics :=
  match snd (fold_left structure_step (walk t) (10.0%Q, [])) with
  | [] => m
  | (_ :: _) as function_lengths =>
      set_function_lengths (list_max_Z function_lengths)
        (inject_Z (list_sum_Z function_lengths)
         / inject_Z (Z.of_nat (List.length function_lengths)))%Q m
  end.

(** *** [_analyze_error_handling] *)

Definition bare_except_emit (n : node) : list finding :=
  match n with
  | ExceptHandler None _ _ lineno =>
      [(High,
        mkIssue (Some lineno) "Bare Except Clause"
          "Using bare except: catches all exceptions including system exits"
          "HIGH")]
  | _ => []
  end.

(** The guard of the "No Error Handling" finding. *)
Definition no_error_handling (t : node) (n_functions : Z) : bool :=
  (count_if is_Try (walk t) =? 0) && (0 <? n_functions).

Definition no_error_handling_findings (t : node) (n_functions : Z)
  : list finding :=
  if no_error_handling t n_functions then
    [(Medium,
      mkIssue (Some 0) "No Error Handling" "No try/except blocks found"
        "MEDIUM")]
  else [].

Definition error_handling_findings (t : node) (n_functions : Z)
  : list finding :=
  flat_map bare_except_emit (walk t) ++ no_error_handling_findings t n_functions.

Definition error_handling_raw (t : node) (n_functions : Z) : Q :=
  let score := fold_left (penalize is_bare_except 2.0%Q) (walk t) 10.0%Q in
  if no_error_handling t n_functions then (score - 2.0)%Q else score.

(** *** [_analyze_performance] *)

(** A [for] loop some node of which is an [append] statement. *)
Definition is_append_loop (n : node) : bool :=
  is_For n && existsb is_append_stmt (walk n).

Definition append_loop_emit (n : node) : list finding :=
  match n with
  | For _ _ _ _ lineno =>
      if existsb is_append_stmt (walk n) then
        [(Low,
          mkIssue (Some lineno) "List Comprehension Opportunity"
            "Consider using list comprehension" "LOW")]
      else []
  | _ => []
  end.

Definition performance_findings (t : node) : list finding :=
  flat_map append_loop_emit (walk t).

Definition performance_raw (t : node) : Q :=
  fold_left (penalize is_append_loop 0.3%Q) (walk t) 10.0%Q.

(** *** [_analyze_security] *)

Definition hardcoded_secret (i : Z) : finding :=
  (Critical,
   mkIssue (Some i) "Hardcoded Secret" "Potential hardcoded secret found"
     "CRITICAL").

(** One finding per pattern that matches the line. *)
Definition secret_emit (il : Z * string) : list finding :=
  flat_map (fun pattern =>
    if Re.search pattern (snd il) then [hardcoded_secret (fst il)] else [])
    secret_patterns.

Definition secret_step (score : Q) (il : Z * string) : Q :=
  fold_left (penalize (fun pattern => Re.search pattern (snd il)) 3.0%Q)
    secret_patterns score.

Definition is_dangerous_call (n : node) : bool :=
  match dangerous_call n with Some _ => true | None => false end.

Definition dangerous_emit (n : node) : list finding :=
  match n with
  | Call (Name id _) _ _ lineno =>
      if String.eqb id "eval" || String.eqb id "exec" then
        [(Critical,
          mkIssue (Some lineno) "Dangerous Function"
            ("Use of " ++ id ++ "() is dangerous")%string "CRITICAL")]
      else []
  | _ => []
  end.

Definition security_findings (ls : list string) (t : node) : list finding :=
  flat_map secret_emit (enumerate ls 1) ++ flat_map dangerous_emit (walk t).

Definition security_raw (ls : list string) (t : node) : Q :=
  fold_left (penalize is_dangerous_call 3.0%Q) (walk t)
    (fold_left secret_step (enumerate ls 1) 10.0%Q).

(** *** [_analyze_maintainability] *)

Definition is_documented (n : node) : bool :=
  match n with
  | FunctionDef _ _ body _ _ _ _ => has_docstring cleandoc body
  | _ => false
  end.

Definition is_hinted (n : node) : bool :=
  match n with
  | FunctionDef _ args _ _ returns _ _ => has_type_hints returns args
  | _ => false
  end.

Definition doc_counts (t : node) : Z * Z :=
  fold_left (fun '(with_docs, total) node =>
    match node with
    | FunctionDef _ _ body _ _ _ _ =>
        (if has_docstring cleandoc body then with_docs + 1 else with_docs,
         total + 1)
    | _ => (with_docs, total)
    end) (walk t) (0, 0).

Definition hint_count (t : node) : Z :=
  fold_left (fun with_hints node =>
    match node with
    | FunctionDef _ args _ _ returns _ _ =>
        if has_type_hints returns args then with_hints + 1 else with_hints
    | _ => with_hints
    end) (walk t) 0.

Definition coverage (part total : Z) : Q :=
  (inject_Z part / inject_Z total * 100)%Q.

Definition low_documentation (t : node) : bool :=
  let '(functions_with_docs, total_functions) := doc_counts t in
  (0 <? total_functions)
  && Qltb (coverage functions_with_docs total_functions) 50.

Definition missing_type_hints (t : node) : bool :=
  let '(_, total_functions) := doc_counts t in
  (0 <? total_functions) && Qltb (coverage (hint_count t) total_functions) 30.

Definition maintainability_findings (t : node) : list finding :=
  (if low_documentation t then
     [(Medium,
       mkIssue (Some 0) "Low Documentation"
         ("Only "
          ++ format_0f (coverage (fst (doc_counts t)) (snd (doc_counts t)))
          ++ "% of functions have docstrings")%string "MEDIUM")]
   else [])
  ++
  (if missing_type_hints t then
     [(Low,
       mkIssue (Some 0) "Missing Type Hints"
         ("Only " ++ format_0f (coverage (hint_count t) (snd (doc_counts t)))
          ++ "% of functions have type hints")%string "LOW")]
   else []).

Definition maintainability_raw (t : node) : Q :=
  let score := 10.0%Q in
  let score := if low_documentation t then (score - 2.0)%Q else score in
  if missing_type_hints t then (score - 1.0)%Q else score.

(** *** [_analyze_best_practices] *)

Definition is_print_call (n : node) : bool :=
  match n with
  | Call (Name id _) _ _ _ => String.eqb id "print"
  | _ => false
  end.

Definition print_emit (n : node) : list finding :=
  match n with
  | Call (Name id _) _ _ lineno =>
      if String.eqb id "print" then
        [(Low,
          mkIssue (Some lineno) "Print Statement"
            "Consider using logging instead of print()" "LOW")]
      else []
  | _ => []
  end.

Definition is_misnamed (n : node) : bool :=
  match n with
  | FunctionDef name _ _ _ _ _ _ =>
      negb (PyStr.islower name) && negb (String.eqb name "__init__")
  | _ => false
  end.

Definition naming_emit (n : node) : list finding :=
  match n with
  | FunctionDef name _ _ _ _ lineno _ =>
      if negb (PyStr.islower name) && negb (String.eqb name "__init__") then
        [(Low,
          mkIssue (Some lineno) "Naming Convention"
            ("Function '" ++ name ++ "' should use snake_case")%string "LOW")]
      else []
  | _ => []
  end.

Definition best_practices_findings (t : node) : list finding :=
  flat_map print_emit (walk t) ++ flat_map naming_emit (walk t).

Definition best_practices_raw (t : node) : Q :=
  fold_left (penalize is_misnamed 0.3%Q) (walk t)
    (fold_left (penalize is_print_call 0.2%Q) (walk t) 10.0%Q).

(** *** The whole run on a source that parses *)

Definition final_metrics (ls : list string) (t : node) : Metrics :=
  structure_metrics t
    (metrics_counted ls t (mkMetrics 0 0 0 0 0 0 0 0%Q)).

Definition final_findings (ls : list string) (t : node) : list finding :=
  structure_findings ls t
  ++ error_handling_findings t (functions (final_metrics ls t))
  ++ performance_findings t
  ++ security_findings ls t
  ++ maintainability_findings t
  ++ best_practices_findings t.

Definition final_scores (ls : list string) (t : node) : Scores :=
  mkScores
    (max0 (structure_raw ls t))
    (max0 (error_handling_raw t (functions (final_metrics ls t))))
    (max0 (performance_raw t))
    (max0 (security_raw ls t))
    (max0 (maintainability_raw t))
    (max0 (best_practices_raw t)).

(** The weighted sum of [_calculate_scores], term by term. *)
Definition weighted_sum (s : Scores) : Q :=
  (0 + structure s * 0.20 + error_handling s * 0.20 + performance s * 0.15
   + security s * 0.15 + maintainability s * 0.15
   + best_practices s * 0.15)%Q.

Definition final_issues (ls : list string) (t : node) : Issues :=
  issues_extend (final_findings ls t) (mkIssues [] [] [] []).

Definition final_report (path source : string) (t : node) : Report.t :=
  let ls := PyStr.split_nl source in
  Report.mk (PyStr.basename path)
    (round1 (weighted_sum (final_scores ls t)))
    (final_scores ls t) (final_metrics ls t) (final_issues ls t)
    (list_sum_Z
       (map (fun k => Z.of_nat (List.length (issues_get (final_issues ls t) k)))
          [Critical; High; Medium; Low])).

(** The analyzer object after [analyze] has returned. *)
Definition final_state (path source : string) (t : node) : Analyzer :=
  let ls := PyStr.split_nl source in
  mkAnalyzer path (PyStr.basename path) (final_issues ls t)
    (final_metrics ls t) (final_scores ls t) (Some source) (Some ls) (Some t)
    (Some (weighted_sum (final_scores ls t))).

End Findings.






(** The issues of one kind (the ['issue'] entry), in order. *)
Definition of_kind (kind : string) (l : list Issue) : list Issue :=
  filter (fun i => String.eqb (issue i) kind) l.

(** The findings of severity [k] and kind [kind], as issues. *)
Definition issues_of (k : Severity) (kind : string) (found : list finding)
  : list Issue :=
  of_kind kind (of_severity k found).

(** The issues filed at line [n]. *)
Definition at_line (n : Z) (l : list Issue) : list Issue :=
  filter (fun i => match line i with Some m => m =? n | None => false end) l.

(** One "Hardcoded Secret" issue at line [i] for every pattern of
    [secret_patterns] that matches [text]. *)
Definition secrets_of_line (i : Z) (text : string) : list Issue :=
  map (fun _ =>
         mkIssue (Some i) "Hardcoded Secret"
           "Potential hardcoded secret found" "CRITICAL")
    (filter (fun pattern => Re.search pattern text) secret_patterns).




(** ** Sample sources, with the trees that [ast.parse] builds for them *)

Module Samples.

Definition dq : ascii := "034"%char.

Definition quoted (s : string) : string :=
  String dq (s ++ String dq EmptyString)%string.

(** ["\n".join(ls)] *)
Fixpoint join_lines (ls : list string) : string :=
  match ls with
  | [] => EmptyString
  | [l] => l
  | l :: ls' => (l ++ String "010" (join_lines ls'))%string
  end.

(** Node classes that the analyzer does not inspect. *)
Definition Pass (lineno : Z) : node := Other [] lineno.
Definition Return (value : node) (lineno : Z) : node := Other [value] lineno.
Definition Assign (target value : node) (lineno : Z) : node :=
  Other [target; value] lineno.
Definition AugAssign (target value : node) (lineno : Z) : node :=
  Other [target; value] lineno.
Definition BinOp (left right : node) (lineno : Z) : node :=
  Other [left; right] lineno.

Definition parameters (names : list string) (lineno : Z) : node :=
  arguments [] (map (fun name => arg name None lineno) names) None [] []
    None [].

(** [examples/sample_code.py] *)
Definition sample_code_source : string :=
  join_lines
    ["# Example Python file for testing the analyzer";
     EmptyString;
     "def calculate_sum(numbers):";
     "    result = 0";
     "    for num in numbers:";
     "        result += num";
     "    return result";
     EmptyString;
     "def process_data(data):";
     "    try:";
     "        return data * 2";
     "    except:  # Bare except - will be flagged";
     ("        print(" ++ quoted "Error occurred"
      ++ ")  # Print instead of logging - will be flagged")%string;
     "        return None";
     EmptyString;
     ("password = " ++ quoted "admin123"
      ++ "  # Hardcoded secret - will be flagged")%string;
     EmptyString;
     "class MyClass:";
     "    def VeryLongFunctionName(self):  # Bad naming - will be flagged";
     "        pass"].

Definition sample_code_tree : node :=
  Module
    [FunctionDef "calculate_sum" (parameters ["numbers"] 3)
       [Assign (Name "result" 4) (Constant (CInt 0) 4) 4;
        For (Name "num" 5) (Name "numbers" 5)
          [AugAssign (Name "result" 6) (Name "num" 6) 6] [] 5;
        Return (Name "result" 7) 7]
       [] None 3 7;
     FunctionDef "process_data" (parameters ["data"] 9)
       [Try
          [Return (BinOp (Name "data" 11) (Constant (CInt 2) 11) 11) 11]
          [ExceptHandler None None
             [Expr (Call (Name "print" 13)
                      [Constant (CStr "Error occurred") 13] [] 13) 13;
              Return (Constant CNone 14) 14]
             12]
          [] [] 10]
       [] None 9 14;
     Assign (Name "password" 16) (Constant (CStr "admin123") 16) 16;
     ClassDef "MyClass" [] []
       [FunctionDef "VeryLongFunctionName" (parameters ["self"] 19)
          [Pass 20] [] None 19 20]
       [] 18 20].

(** A function without docstring and type hints. *)
Definition pass_function_source : string :=
  join_lines ["def f():"; "    pass"].

Definition pass_function_tree : node :=
  Module [FunctionDef "f" (parameters [] 1) [Pass 2] [] None 1 2].

(** A source that does not parse. *)
Definition broken_source : string := "def f(:".

Definition broken_error : SyntaxError :=
  mkSyntaxError (Some 1) "invalid syntax (<unknown>, line 1)".

(** Five catch-all handlers and no function. *)
Definition try_block : list string :=
  ["try:"; "    pass"; "except:"; "    pass"].

Definition five_handlers_source : string :=
  join_lines (try_block ++ try_block ++ try_block ++ try_block ++ try_block).

Definition try_at (lineno : Z) : node :=
  Try [Pass (lineno + 1)]
    [ExceptHandler None None [Pass (lineno + 3)] (lineno + 2)] [] [] lineno.

Definition five_handlers_tree : node :=
  Module [try_at 1; try_at 5; try_at 9; try_at 13; try_at 17].

(** One assignment of a quoted string to [password]. *)
Definition password_line : string := ("password = " ++ quoted "x")%string.

Definition password_tree : node :=
  Module [Assign (Name "password" 1) (Constant (CStr "x") 1) 1].

(** A [while] loop and a [for] loop that append to a list. *)
Definition append_call (list_name : string) (item : node) (lineno : Z)
  : node :=
  Expr (Call (Attribute (Name list_name lineno) "append" lineno) [item] []
          lineno) lineno.

Definition while_append_source : string :=
  join_lines ["while go:"; "    xs.append(1)"].

Definition while_append_loop : node :=
  While (Name "go" 1) [append_call "xs" (Constant (CInt 1) 2) 2] [] 1.

Definition while_append_tree : node := Module [while_append_loop].

Definition for_append_source : string :=
  join_lines ["for x in ys:"; "    xs.append(x)"; "    zs.append(x)"].

Definition for_append_tree : node :=
  Module
    [For (Name "x" 1) (Name "ys" 1)
       [append_call "xs" (Name "x" 2) 2; append_call "zs" (Name "x" 3) 3]
       [] 1].

(** A documented function whose only annotation is on a keyword-only
    parameter. *)
Definition kwonly_source : string :=
  join_lines ["def f(*, x: int):"; "    'Doc.'"; "    return x"].

Definition kwonly_tree : node :=
  Module
    [FunctionDef "f"
       (arguments [] [] None [arg "x" (Some (Name "int" 1)) 1] [] None [])
       [Expr (Constant (CStr "Doc.") 2) 2; Return (Name "x" 3) 3]
       [] None 1 3].

(** A file whose only function is a coroutine. *)
Definition async_source : string :=
  join_lines ["async def Fetch(url):"; "    return url"].

Definition async_tree : node :=
  Module
    [AsyncFunctionDef "Fetch" (parameters ["url"] 1)
       [Return (Name "url" 2) 2] [] None 1 2].

Definition parsed : list (string * node) :=
  [(sample_code_source, sample_code_tree);
   (pass_function_source, pass_function_tree);
   (five_handlers_source, five_handlers_tree);
   (password_line, password_tree);
   (while_append_source, while_append_tree);
   (for_append_source, for_append_tree);
   (kwonly_source, kwonly_tree);
   (async_source, async_tree)].

(** [ast.parse] restricted to the samples: the tree of a sample, and the
    syntax error of every other text. *)
Definition parse (source : string) : SyntaxError + node :=
  match find (fun entry => String.eqb (fst entry) source) parsed with
  | Some entry => inr (snd entry)
  | None => inl broken_error
  end.

(** [inspect.cleandoc] on a docstring of one line without tabs. *)
Definition cleandoc (doc : string) : string := PyStr.lstrip doc.

End Samples.

(** ** Further readings of the source text and of the tree *)




(** [node.end_lineno - node.lineno] of a function definition. *)
Definition function_length (n : node) : Z :=
  match n with
  | FunctionDef _ _ _ _ _ lineno end_lineno => end_lineno - lineno
  | _ => 0
  end.

(** The two classes of long function of [_analyze_structure]: more than
    100 lines, and more than 50 but at most 100. *)
Definition is_very_long (n : node) : bool :=
  is_FunctionDef n && (100 <? function_length n).

Definition is_long (n : node) : bool :=
  is_FunctionDef n && negb (100 <? function_length n)
  && (50 <? function_length n).







Definition dangerous_issue (n : node) : Issue :=
  match n with
  | Call (Name id _) _ _ lineno =>
      mkIssue (Some lineno) "Dangerous Function"
        ("Use of " ++ id ++ "() is dangerous")%string "CRITICAL"
  | _ => mkIssue None EmptyString EmptyString EmptyString
  end.



(** The two file-level issues of [_analyze_maintainability]. *)
Definition low_documentation_issue (doc_coverage : Q) : Issue :=
  mkIssue (Some 0) "Low Documentation"
    ("Only " ++ format_0f doc_coverage
     ++ "% of functions have docstrings")%string "MEDIUM".

Definition missing_type_hints_issue (hint_coverage : Q) : Issue :=
  mkIssue (Some 0) "Missing Type Hints"
    ("Only " ++ format_0f hint_coverage
     ++ "% of functions have type hints")%string "LOW".

(** The ['severity'] entry that goes with each key of [self.issues]. *)
Definition severity_label (k : Severity) : string :=
  match k with
  | Critical => "CRITICAL"
  | High => "HIGH"
  | Medium => "MEDIUM"
  | Low => "LOW"
  end.

(** A finding whose ['severity'] entry names the list it is appended to. *)
Definition well_labelled (f : finding) : Prop :=
  severity (snd f) = severity_label (fst f).

(** The category whose analyzer files an issue of a given kind. *)
Definition category_of_kind (kind : string) : option Category :=
  if String.eqb kind "Long Function" then Some Structure
  else if String.eqb kind "Code Duplication" then Some Structure
  else if String.eqb kind "Bare Except Clause" then Some ErrorHandling
  else if String.eqb kind "No Error Handling" then Some ErrorHandling
  else if String.eqb kind "List Comprehension Opportunity"
  then Some Performance
  else if String.eqb kind "Hardcoded Secret" then Some Security
  else if String.eqb kind "Dangerous Function" then Some Security
  else if String.eqb kind "Low Documentation" then Some Maintainability
  else if String.eqb kind "Missing Type Hints" then Some Maintainability
  else if String.eqb kind "Print Statement" then Some BestPractices
  else if String.eqb kind "Naming Convention" then Some BestPractices
  else None.

Definition category_eqb (a b : Category) : bool :=
  match a, b with
  | Structure, Structure | ErrorHandling, ErrorHandling
  | Performance, Performance | Security, Security
  | Maintainability, Maintainability | BestPractices, BestPractices => true
  | _, _ => false
  end.

Definition in_category (c : Category) (i : Issue) : bool :=
  match category_of_kind (issue i) with
  | Some c' => category_eqb c c'
  | None => false
  end.

(** What the analyzer subtracts from its [score] next to the [append] of
    an issue of each kind. *)
Definition penalty_of (i : Issue) : Q :=
  if String.eqb (issue i) "Long Function" then
    (if String.eqb (severity i) "HIGH" then 1.0 else 0.5)%Q
  else if String.eqb (issue i) "Code Duplication" then 1.0%Q
  else if String.eqb (issue i) "Bare Except Clause" then 2.0%Q
  else if String.eqb (issue i) "No Error Handling" then 2.0%Q
  else if String.eqb (issue i) "List Comprehension Opportunity" then 0.3%Q
  else if String.eqb (issue i) "Hardcoded Secret" then 3.0%Q
  else if String.eqb (issue i) "Dangerous Function" then 3.0%Q
  else if String.eqb (issue i) "Low Documentation" then 2.0%Q
  else if String.eqb (issue i) "Missing Type Hints" then 1.0%Q
  else if String.eqb (issue i) "Print Statement" then 0.2%Q
  else if String.eqb (issue i) "Naming Convention" then 0.3%Q
  else 0%Q.

Definition sum_Q (l : list Q) : Q := fold_right Qplus 0%Q l.

(** The four lists of [self.issues], one after the other. *)
Definition all_issues (d : Issues) : list Issue :=
  critical d ++ high d ++ medium d ++ low d.

(** The penalties of the issues of one category. *)
Definition charged (c : Category) (l : list Issue) : Q :=
  sum_Q (map penalty_of (filter (in_category c) l)).

(** An issue of a known kind, with the penalty of that kind. *)
Definition has_penalty (i : Issue) : Prop :=
  exists c, in_category c i = true /\ (0 < penalty_of i)%Q.

(** The third line of the readiness block of [print_report]. *)
Definition not_production_ready : string :=
  "❌ NOT PRODUCTION READY - Critical issues must be fixed".

(** Characters and atoms of the secret patterns. *)
Definition is_quote (c : ascii) : bool :=
  Ascii.eqb c "034"%char || Ascii.eqb c "039"%char.

Definition is_equals (c : ascii) : bool := Ascii.eqb c "="%char.

Fixpoint count_chars (p : ascii -> bool) (s : string) : Z :=
  match s with
  | EmptyString => 0
  | String c s' => (if p c then 1 else 0) + count_chars p s'
  end.

Definition is_quote_atom (a : Re.atom) : bool :=
  match a with Re.Quote => true | _ => false end.

Definition is_equals_atom (a : Re.atom) : bool :=
  match a with Re.Lit c => Ascii.eqb c "="%char | _ => false end.

(** The atoms of a pattern that must consume a character each. *)
Fixpoint required (sel : Re.atom -> bool) (p : Re.pattern) : Z :=
  match p with
  | [] => 0
  | Re.One a :: p' => (if sel a then 1 else 0) + required sel p'
  | Re.Star _ :: p' => required sel p'
  end.

(** ** The command line of [main] *)

Module PyPath.

(** [s.endswith(suffix)] *)
Fixpoint endswith (suffix s : string) : bool :=
  String.eqb suffix s
  || match s with
     | String _ s' => endswith suffix s'
     | EmptyString => false
     end.

(** [os.path.join(root, name)] on POSIX. *)
Definition join (root name : string) : string :=
  if PyStr.startswith "/" name then name
  else if negb (PyStr.truthy root) || endswith "/" root
       then (root ++ name)%string
       else (root ++ "/" ++ name)%string.

End PyPath.

(** The namespace that [parser.parse_args()] returns: an option that is
    not on the command line is [None]. *)
Module Args.
Record t : Type := mk {
  file : option string;
  directory : option string;
  output : option string
}.
End Args.

(** Truth value of an option of the command line: [None] and the empty
    string are false. *)
Definition given (a : option string) : bool :=
  match a with
  | Some s => PyStr.truthy s
  | None => false
  end.

Section Main.

(** [os.path.exists] and [os.walk] read the file system. *)
Variable path_exists : string -> bool.
Variable os_walk : string -> list (string * list string * list string).

(** The [.py] files of a directory tree, in the order of [os.walk]. *)
Definition scan (directory : string) : list string :=
  flat_map (fun entry =>
    let '(root, _, files) := entry in
    flat_map (fun name =>
      if PyPath.endswith ".py" name then [PyPath.join root name] else [])
      files) (os_walk directory).

(** The first part of [main]: the list [files_to_analyze], or the status
    of [sys.exit]. *)
Definition files_to_analyze (args : Args.t) : Z + list string :=
  if negb (given (Args.file args)) && negb (given (Args.directory args))
  then inl 1
  else
    let from_file :=
      match Args.file args with
      | Some f =>
          if PyStr.truthy f then
            (if path_exists f then inr [f] else inl 1)
          else inr []
      | None => inr []
      end in
    match from_file with
    | inl status => inl status
    | inr files =>
        match Args.directory args with
        | Some d =>
            if PyStr.truthy d then
              (if path_exists d then inr (files ++ scan d) else inl 1)
            else inr files
        | None => inr files
        end
    end.

End Main.

(** ** More sample sources *)

Module MoreSamples.

(** The same statement three times. *)
Definition repeated_line : string := "total = total + compute(value)".

Definition repeated_source : string :=
  Samples.join_lines [repeated_line; repeated_line; repeated_line].

Definition repeated_statement (lineno : Z) : node :=
  Samples.Assign (Name "total" lineno)
    (Samples.BinOp (Name "total" lineno)
       (Call (Name "compute" lineno) [Name "value" lineno] [] lineno) lineno)
    lineno.

Definition repeated_tree : node :=
  Module [repeated_statement 1; repeated_statement 2; repeated_statement 3].

(** [ast.parse] on the samples. *)
Definition parse (source : string) : SyntaxError + node :=
  if String.eqb source repeated_source then inr repeated_tree
  else Samples.parse source.

End MoreSamples.

(** * Properties *)

(** ** [ast.walk] visits every node of the tree exactly once *)

Lemma preorder_list_flat_map (l : list node) :
  (fix pl (l : list node) : list node :=
     match l with
     | [] => []
     | c :: r => preorder c ++ pl r
     end) l = flat_map preorder l.
Proof.
  induction l as [|c r IH]; simpl; [reflexivity | now rewrite IH].
Qed.

Lemma preorder_opt_flat_map (o : option node) :
  match o with Some c => preorder c | None => [] end
  = flat_map preorder (opt_list o).
Proof.
  destruct o; simpl; [now rewrite app_nil_r | reflexivity].
Qed.

Lemma preorder_unfold (n : node) :
  preorder n = n :: flat_map preorder (iter_child_nodes n).
Proof.
  destruct n; simpl; f_equal;
    rewrite ?preorder_list_flat_map, ?preorder_opt_flat_map,
      ?flat_map_app; simpl; rewrite ?app_nil_r; reflexivity.
Qed.

Lemma walk_queue_perm (fuel : nat) :
  forall todo,
    (List.length (flat_map preorder todo) <= fuel)%nat ->
    Permutation (walk_queue fuel todo) (flat_map preorder todo).
Proof.
  induction fuel as [|fuel IH]; intros todo Hlen.
  - destruct todo as [|n rest]; simpl; [constructor|].
    simpl in Hlen. rewrite preorder_unfold in Hlen. simpl in Hlen. lia.
  - destruct todo as [|n rest]; simpl; [constructor|].
    rewrite preorder_unfold. simpl. constructor.
    simpl in Hlen. rewrite preorder_unfold in Hlen. simpl in Hlen.
    rewrite !length_app in Hlen.
    etransitivity.
    + apply IH. rewrite flat_map_app, length_app. lia.
    + rewrite flat_map_app. apply Permutation_app_comm.
Qed.

(** The breadth-first walk is a rearrangement of the nodes of the tree: no
    node is missed and none is yielded twice. *)
Lemma walk_perm (t : node) : Permutation (walk t) (preorder t).
Proof.
  unfold walk.
  replace (preorder t) with (flat_map preorder [t]) at 2
    by (simpl; apply app_nil_r).
  apply walk_queue_perm. simpl. rewrite app_nil_r. lia.
Qed.

Lemma walk_In (t n : node) : In n (walk t) <-> In n (preorder t).
Proof.
  split; apply Permutation_in; [|symmetry]; apply walk_perm.
Qed.

Lemma filter_perm {A : Type} (p : A -> bool) (l l' : list A) :
  Permutation l l' -> Permutation (filter p l) (filter p l').
Proof.
  induction 1; simpl.
  - constructor.
  - destruct (p x); [constructor|]; assumption.
  - destruct (p x), (p y); try constructor; apply Permutation_refl.
  - etransitivity; eassumption.
Qed.



(** ** Loops in the monad *)

Local Open Scope py_scope.

Lemma for_loop_pure {A S : Type} (body : S -> A -> M S)
    (step : S -> A -> S) (upd : A -> Analyzer -> Analyzer) :
  (forall acc x self, body acc x self = (inr (step acc x), upd x self)) ->
  forall xs acc self,
    for_loop xs body acc self
    = (inr (fold_left step xs acc), fold_left (fun s x => upd x s) xs self).
Proof.
  intros Hbody xs. induction xs as [|x xs IH]; intros acc self; simpl.
  - reflexivity.
  - unfold bind. rewrite Hbody. apply IH.
Qed.

Lemma issues_extend_app (l1 l2 : list finding) (d : Issues) :
  issues_extend (l1 ++ l2) d = issues_extend l2 (issues_extend l1 d).
Proof. unfold issues_extend. apply fold_left_app. Qed.

Lemma with_issues_id (self : Analyzer) :
  with_issues (issues_extend []) self = self.
Proof. destruct self; reflexivity. Qed.

Lemma with_issues_extend_fold {A : Type} (emit : A -> list finding) :
  forall xs self,
    fold_left (fun s x => with_issues (issues_extend (emit x)) s) xs self
    = with_issues (issues_extend (flat_map emit xs)) self.
Proof.
  induction xs as [|x xs IH]; intros self; simpl.
  - symmetry. apply with_issues_id.
  - rewrite IH. unfold with_issues; simpl. now rewrite issues_extend_app.
Qed.

(** A loop whose body appends the findings [emit x] and updates its local
    variables by [step]. *)
Lemma for_loop_findings {A S : Type} (body : S -> A -> M S)
    (step : S -> A -> S) (emit : A -> list finding) :
  (forall acc x self,
      body acc x self
      = (inr (step acc x), with_issues (issues_extend (emit x)) self)) ->
  forall xs acc self,
    for_loop xs body acc self
    = (inr (fold_left step xs acc),
       with_issues (issues_extend (flat_map emit xs)) self).
Proof.
  intros Hbody xs acc self.
  rewrite (for_loop_pure body step
             (fun x => with_issues (issues_extend (emit x))) Hbody).
  now rewrite with_issues_extend_fold.
Qed.

Lemma with_metrics_fold {A : Type} (f : Metrics -> A -> Metrics) :
  forall xs self,
    fold_left (fun s x => with_metrics (fun m => f m x) s) xs self
    = with_metrics (fun m => fold_left f xs m) self.
Proof.
  induction xs as [|x xs IH]; intros self; simpl.
  - destruct self; reflexivity.
  - rewrite IH. reflexivity.
Qed.

(** ** Each method, run on an analyzer whose lines and tree are set *)

Section Methods.

Variable parse : string -> SyntaxError + node.
Variable cleandoc : string -> string.

Variables (ls : list string) (t : node).

Lemma _analyze_metrics_run (self : Analyzer) :
  lines self = Some ls -> tree self = Some t ->
  _analyze_metrics self
  = (inr tt, with_metrics (metrics_counted ls t) self).
Proof.
  intros Hl Ht. unfold _analyze_metrics.
  unfold bind at 1, getattr at 1. rewrite Hl.
  unfold bind at 1, modify at 1.
  unfold bind at 1.
  rewrite (for_loop_pure _ (fun _ _ => tt)
             (fun line => with_metrics (fun m => lines_step m line))).
  2:{ intros [] line s. unfold lines_step.
      destruct (negb _); [reflexivity|].
      destruct (PyStr.startswith _ _); [reflexivity|].
      destruct s; reflexivity. }
  rewrite with_metrics_fold.
  unfold bind at 1, getattr at 1. simpl tree. rewrite Ht.
  rewrite (for_loop_pure _ (fun _ _ => tt)
             (fun n => with_metrics (fun m => defs_step m n))).
  2:{ intros [] n s. destruct n; try reflexivity; destruct s; reflexivity. }
  rewrite with_metrics_fold.
  f_equal. now destruct (fold_left _ (walk t) tt).
Qed.

Lemma _analyze_structure_run (self : Analyzer) :
  lines self = Some ls -> tree self = Some t ->
  _analyze_structure self
  = (inr tt,
     with_scores (scores_set Structure (max0 (structure_raw ls t)))
       (with_issues (issues_extend (structure_findings ls t))
          (with_metrics (structure_metrics t) self))).
Proof.
  intros Hl Ht. unfold _analyze_structure.
  unfold bind at 1, getattr at 1. rewrite Ht.
  unfold bind at 1.
  rewrite (for_loop_findings _ structure_step structure_emit).
  2:{ intros [score fl] n s.
      destruct n; try (destruct s; reflexivity). simpl.
      destruct (100 <? _); [reflexivity|].
      destruct (50 <? _); [reflexivity | destruct s; reflexivity]. }
  unfold structure_raw, structure_metrics, structure_findings,
    duplication_findings.
  destruct (fold_left structure_step (walk t) (10.0%Q, [])) as [score fl].
  unfold _check_duplication.
  destruct fl as [|len fl].
  - unfold append_issue, set_score, modify, getattr, bind, ret.
    cbn [lines with_issues with_metrics with_scores]. rewrite Hl.
    fold (duplicated ls). cbn [fst snd].
    destruct (duplicated ls); destruct self;
      unfold with_scores, with_issues, with_metrics; cbn;
      rewrite ?issues_extend_app; reflexivity.
  - unfold append_issue, set_score, modify, getattr, bind, ret.
    cbn [lines with_issues with_metrics with_scores]. rewrite Hl.
    fold (duplicated ls). cbn [fst snd].
    destruct (duplicated ls); destruct self;
      unfold with_scores, with_issues, with_metrics; cbn;
      rewrite ?issues_extend_app; reflexivity.
Qed.

Ltac run := unfold append_issue, set_score, gets, modify, getattr, bind, ret.

Ltac same_state self :=
  destruct self; unfold with_scores, with_issues, with_metrics; cbn;
  rewrite ?issues_extend_app; reflexivity.

Lemma _analyze_error_handling_run (self : Analyzer) :
  tree self = Some t ->
  _analyze_error_handling self
  = (inr tt,
     with_scores
       (scores_set ErrorHandling
          (max0 (error_handling_raw t (functions (metrics self)))))
       (with_issues
          (issues_extend
             (error_handling_findings t (functions (metrics self))))
          self)).
Proof.
  intros Ht. unfold _analyze_error_handling.
  unfold bind at 1, getattr at 1. rewrite Ht.
  unfold bind at 1.
  rewrite (for_loop_findings _ (penalize is_bare_except 2.0%Q)
             bare_except_emit).
  2:{ intros score n s. destruct n; try (destruct s; reflexivity).
      match goal with
      | |- context [ExceptHandler ?ty _ _ _] =>
          destruct ty; [destruct s|]; reflexivity
      end. }
  unfold error_handling_raw, error_handling_findings,
    no_error_handling_findings, no_error_handling, count_if.
  run. cbn [tree metrics with_issues]. rewrite Ht.
  destruct (_ && _); same_state self.
Qed.

Lemma _analyze_performance_run (self : Analyzer) :
  tree self = Some t ->
  _analyze_performance self
  = (inr tt,
     with_scores (scores_set Performance (max0 (performance_raw t)))
       (with_issues (issues_extend (performance_findings t)) self)).
Proof.
  intros Ht. unfold _analyze_performance.
  unfold bind at 1, getattr at 1. rewrite Ht.
  unfold bind at 1.
  rewrite (for_loop_findings _ (penalize is_append_loop 0.3%Q)
             append_loop_emit).
  2:{ intros score n s. destruct n; try (destruct s; reflexivity).
      unfold penalize, is_append_loop, append_loop_emit. cbn [is_For andb].
      destruct (existsb _ _); [reflexivity | destruct s; reflexivity]. }
  reflexivity.
Qed.

Lemma _analyze_security_run (self : Analyzer) :
  lines self = Some ls -> tree self = Some t ->
  _analyze_security self
  = (inr tt,
     with_scores (scores_set Security (max0 (security_raw ls t)))
       (with_issues (issues_extend (security_findings ls t)) self)).
Proof.
  intros Hl Ht. unfold _analyze_security.
  unfold bind at 1, getattr at 1. rewrite Hl.
  unfold bind at 1.
  rewrite (for_loop_findings _ secret_step secret_emit).
  2:{ intros score [i line] s. unfold secret_step, secret_emit.
      cbn [fst snd].
      apply for_loop_findings.
      intros acc pattern s'. unfold penalize.
      destruct (Re.search pattern line);
        [reflexivity | destruct s'; reflexivity]. }
  unfold bind at 1, getattr at 1. cbn [tree with_issues]. rewrite Ht.
  unfold bind at 1.
  rewrite (for_loop_findings _ (penalize is_dangerous_call 3.0%Q)
             dangerous_emit).
  2:{ intros score n s. destruct n; try (destruct s; reflexivity).
      match goal with
      | |- context [Call ?f _ _ _] =>
          destruct f; try (destruct s; reflexivity)
      end.
      unfold penalize, is_dangerous_call, dangerous_call, dangerous_emit.
      destruct (_ || _); [reflexivity | destruct s; reflexivity]. }
  unfold security_raw, security_findings. run. same_state self.
Qed.

Lemma _analyze_maintainability_run (self : Analyzer) :
  tree self = Some t ->
  _analyze_maintainability cleandoc self
  = (inr tt,
     with_scores
       (scores_set Maintainability (max0 (maintainability_raw cleandoc t)))
       (with_issues (issues_extend (maintainability_findings cleandoc t))
          self)).
Proof.
  intros Ht. unfold _analyze_maintainability.
  unfold bind at 1, getattr at 1. rewrite Ht.
  fold (doc_counts cleandoc t).
  unfold maintainability_raw, maintainability_findings, low_documentation,
    missing_type_hints.
  destruct (doc_counts cleandoc t) as [with_docs total]. cbn [fst snd].
  fold (coverage with_docs total).
  destruct (0 <? total); cbn [andb].
  - destruct (Qltb (coverage with_docs total) 50).
    + run. cbn [tree with_issues]. rewrite Ht.
      fold (hint_count t). fold (coverage (hint_count t) total).
      destruct (Qltb (coverage (hint_count t) total) 30); same_state self.
    + run. rewrite Ht.
      fold (hint_count t). fold (coverage (hint_count t) total).
      destruct (Qltb (coverage (hint_count t) total) 30); same_state self.
  - run. rewrite Ht. same_state self.
Qed.

Lemma _analyze_best_practices_run (self : Analyzer) :
  tree self = Some t ->
  _analyze_best_practices self
  = (inr tt,
     with_scores (scores_set BestPractices (max0 (best_practices_raw t)))
       (with_issues (issues_extend (best_practices_findings t)) self)).
Proof.
  intros Ht. unfold _analyze_best_practices.
  unfold bind at 1, getattr at 1. rewrite Ht.
  unfold bind at 1.
  rewrite (for_loop_findings _ (penalize is_print_call 0.2%Q) print_emit).
  2:{ intros score n s. destruct n; try (destruct s; reflexivity).
      match goal with
      | |- context [Call ?f _ _ _] =>
          destruct f; try (destruct s; reflexivity)
      end.
      unfold penalize, is_print_call, print_emit.
      destruct (String.eqb id "print");
        [reflexivity | destruct s; reflexivity]. }
  unfold bind at 1, getattr at 1. cbn [tree with_issues]. rewrite Ht.
  unfold bind at 1.
  rewrite (for_loop_findings _ (penalize is_misnamed 0.3%Q) naming_emit).
  2:{ intros score n s. destruct n; try (destruct s; reflexivity).
      unfold penalize, is_misnamed, naming_emit.
      destruct (_ && _); [reflexivity | destruct s; reflexivity]. }
  unfold best_practices_raw, best_practices_findings. run. same_state self.
Qed.

Lemma _calculate_scores_run (self : Analyzer) :
  _calculate_scores self
  = (inr tt, with_overall_score (weighted_sum (scores self)) self).
Proof. reflexivity. Qed.

(** [generate_report] returns exactly when [overall_score] has been
    assigned. *)
Lemma generate_report_run (self : Analyzer) (overall : Q) :
  overall_score self = Some overall ->
  generate_report self
  = (inr (Report.mk (file_name self) (round1 overall) (scores self)
            (metrics self) (issues self)
            (list_sum_Z
               (map (fun k =>
                       Z.of_nat (List.length (issues_get (issues self) k)))
                  [Critical; High; Medium; Low]))),
     self).
Proof.
  intros H. unfold generate_report. run. rewrite H. reflexivity.
Qed.

Lemma generate_report_unassigned (self : Analyzer) :
  overall_score self = None ->
  generate_report self = (inl (AttributeError "overall_score"), self).
Proof.
  intros H. unfold generate_report. run. rewrite H. reflexivity.
Qed.

End Methods.

(** ** The whole of [analyze] *)

Section Analyze.

Variable parse : string -> SyntaxError + node.
Variable cleandoc : string -> string.

(** On a source that parses, [analyze] returns, and the report and the
    analyzer are the ones computed by the functions of the findings. *)
Lemma analyze_parsed (path source : string) (t : node) :
  parse source = inr t ->
  analyze parse cleandoc source (__init__ path)
  = (inr (final_report cleandoc path source t),
     final_state cleandoc path source t).
Proof.
  intros Hparse. unfold analyze.
  unfold bind at 1, modify at 1. unfold bind at 1, modify at 1.
  rewrite Hparse. unfold bind at 1, modify at 1.
  set (ls := PyStr.split_nl source).
  unfold bind at 1.
  rewrite (_analyze_metrics_run ls t) by reflexivity.
  unfold bind at 1.
  rewrite (_analyze_structure_run ls t) by reflexivity.
  unfold bind at 1.
  rewrite (_analyze_error_handling_run t) by reflexivity.
  unfold bind at 1.
  rewrite (_analyze_performance_run t) by reflexivity.
  unfold bind at 1.
  rewrite (_analyze_security_run ls t) by reflexivity.
  unfold bind at 1.
  rewrite (_analyze_maintainability_run cleandoc t) by reflexivity.
  unfold bind at 1.
  rewrite (_analyze_best_practices_run t) by reflexivity.
  unfold bind at 1.
  rewrite _calculate_scores_run.
  erewrite generate_report_run by reflexivity.
  unfold final_report, final_state, final_issues, final_findings.
  fold ls. rewrite !issues_extend_app.
  reflexivity.
Qed.

(** On a source that does not parse, [analyze] records the syntax error and
    calls [generate_report], which reads [self.overall_score]: only
    [_calculate_scores] assigns that attribute, and it has not run. *)
Lemma analyze_unparsed (path source : string) (e : SyntaxError) :
  parse source = inl e ->
  analyze parse cleandoc source (__init__ path)
  = (inl (AttributeError "overall_score"),
     mkAnalyzer path (PyStr.basename path)
       (mkIssues
          [mkIssue (err_lineno e) "Syntax Error" (err_str e) "CRITICAL"]
          [] [] [])
       (mkMetrics 0 0 0 0 0 0 0 0%Q) (mkScores 0%Q 0%Q 0%Q 0%Q 0%Q 0%Q)
       (Some source) (Some (PyStr.split_nl source)) None None).
Proof.
  intros Hparse. unfold analyze.
  unfold bind at 1, modify at 1. unfold bind at 1, modify at 1.
  rewrite Hparse. unfold bind at 1, append_issue, modify.
  rewrite generate_report_unassigned by reflexivity.
  reflexivity.
Qed.

End Analyze.

(** ** Arithmetic of the scores *)

Local Open Scope Q_scope.

Lemma max0_nonneg (x : Q) : 0 <= max0 x.
Proof.
  unfold max0. destruct (Qle_bool x 0) eqn:E; [lra|].
  destruct (Qlt_le_dec 0 x) as [H|H]; [lra|].
  apply Qle_bool_iff in H. congruence.
Qed.

Lemma max0_le (x b : Q) : 0 <= b -> x <= b -> max0 x <= b.
Proof. intros Hb Hx. unfold max0. destruct (Qle_bool x 0); assumption. Qed.

Lemma max0_compat (x y : Q) : x == y -> max0 x == max0 y.
Proof.
  intros H. unfold max0.
  destruct (Qle_bool x 0) eqn:Ex, (Qle_bool y 0) eqn:Ey;
    try reflexivity; try assumption.
  - apply Qle_bool_iff in Ex. rewrite H in Ex. apply Qle_bool_iff in Ex.
    congruence.
  - apply Qle_bool_iff in Ey. rewrite <- H in Ey. apply Qle_bool_iff in Ey.
    congruence.
Qed.

Lemma count_if_cons {A : Type} (p : A -> bool) (x : A) (xs : list A) :
  count_if p (x :: xs)
  = ((if p x then 1 else 0) + count_if p xs)%Z.
Proof.
  unfold count_if. simpl. destruct (p x); simpl List.length; lia.
Qed.

Lemma count_if_nonneg {A : Type} (p : A -> bool) (xs : list A) :
  (0 <= count_if p xs)%Z.
Proof. unfold count_if. lia. Qed.

(** A loop that subtracts [c] for every element that satisfies [p]. *)
Lemma fold_penalize {A : Type} (p : A -> bool) (c : Q) (xs : list A) :
  forall score,
    fold_left (penalize p c) xs score
    == score - c * inject_Z (count_if p xs).
Proof.
  induction xs as [|x xs IH]; intros score.
  - cbn. change (inject_Z 0) with 0. lra.
  - simpl fold_left. rewrite IH, count_if_cons. unfold penalize.
    rewrite inject_Z_plus.
    destruct (p x); [change (inject_Z 1) with 1 | change (inject_Z 0) with 0];
      lra.
Qed.

Lemma fold_penalize_le {A : Type} (p : A -> bool) (c : Q) (xs : list A) :
  0 <= c -> forall score, fold_left (penalize p c) xs score <= score.
Proof.
  intros Hc score. rewrite fold_penalize.
  pose proof (count_if_nonneg p xs) as H.
  assert (0 <= inject_Z (count_if p xs)) as H'
    by (change 0 with (inject_Z 0); now rewrite <- Zle_Qle).
  nra.
Qed.

Lemma count_if_perm {A : Type} (p : A -> bool) (l l' : list A) :
  Permutation l l' -> count_if p l = count_if p l'.
Proof.
  intros H. unfold count_if. f_equal.
  apply Permutation_length, filter_perm, H.
Qed.

(** Counting over the walk is counting over the nodes of the tree. *)
Lemma count_if_walk (p : node -> bool) (t : node) :
  count_if p (walk t) = count_if p (preorder t).
Proof. apply count_if_perm, walk_perm. Qed.

Lemma round_half_even_bounds (x : Q) (lo hi : Z) :
  inject_Z lo <= x -> x <= inject_Z hi ->
  (lo <= round_half_even x <= hi)%Z.
Proof.
  intros Hlo Hhi. unfold round_half_even.
  pose proof (Qfloor_le x) as Hf. pose proof (Qlt_floor x) as Hc.
  assert (lo <= Qfloor x)%Z as Hl.
  { rewrite <- (Qfloor_Z lo). now apply Qfloor_resp_le. }
  assert (Qfloor x <= hi)%Z as Hh.
  { rewrite <- (Qfloor_Z hi). now apply Qfloor_resp_le. }
  assert (0 < x - inject_Z (Qfloor x) -> (Qfloor x + 1 <= hi)%Z) as Hup.
  { intros Hpos. destruct (Z.eq_dec (Qfloor x) hi) as [E|E]; [|lia].
    rewrite E in Hpos. lra. }
  destruct (Qcompare (x - inject_Z (Qfloor x)) (1 # 2)) eqn:E.
  - apply Qeq_alt in E.
    destruct (Z.even (Qfloor x)); [lia|].
    split; [lia|]. apply Hup. lra.
  - lia.
  - apply Qgt_alt in E. split; [lia|]. apply Hup. lra.
Qed.


Local Close Scope Q_scope.

(** ** The buckets of [self.issues] *)

Lemma of_severity_app (k : Severity) (l1 l2 : list finding) :
  of_severity k (l1 ++ l2) = of_severity k l1 ++ of_severity k l2.
Proof. apply flat_map_app. Qed.

Lemma issues_extend_get (k : Severity) (found : list finding) :
  forall d,
    issues_get (issues_extend found d) k
    = issues_get d k ++ of_severity k found.
Proof.
  induction found as [|[k' i] found IH]; intros d.
  - simpl. now rewrite app_nil_r.
  - change (issues_extend ((k', i) :: found) d)
      with (issues_extend found (issues_append k' i d)).
    rewrite IH. destruct k, k', d; simpl; rewrite <- ?app_assoc; reflexivity.
Qed.

Lemma of_kind_app (kind : string) (l1 l2 : list Issue) :
  of_kind kind (l1 ++ l2) = of_kind kind l1 ++ of_kind kind l2.
Proof. apply filter_app. Qed.

Lemma issues_of_app (k : Severity) (kind : string) (l1 l2 : list finding) :
  issues_of k kind (l1 ++ l2) = issues_of k kind l1 ++ issues_of k kind l2.
Proof. unfold issues_of. now rewrite of_severity_app, of_kind_app. Qed.

Lemma issues_of_flat_map {A : Type} (k : Severity) (kind : string)
    (emit : A -> list finding) (xs : list A) :
  issues_of k kind (flat_map emit xs)
  = flat_map (fun x => issues_of k kind (emit x)) xs.
Proof.
  induction xs as [|x xs IH]; simpl; [reflexivity|].
  now rewrite issues_of_app, IH.
Qed.

Lemma flat_map_nil {A B : Type} (f : A -> list B) (xs : list A) :
  (forall x, f x = []) -> flat_map f xs = [].
Proof.
  intros H. induction xs as [|x xs IH]; simpl; [reflexivity|].
  now rewrite H, IH.
Qed.

Lemma flat_map_select {A B : Type} (f : A -> list B) (p : A -> bool)
    (g : A -> B) (xs : list A) :
  (forall x, f x = if p x then [g x] else []) ->
  flat_map f xs = map g (filter p xs).
Proof.
  intros H. induction xs as [|x xs IH]; simpl; [reflexivity|].
  rewrite H, IH. destruct (p x); reflexivity.
Qed.

(** The findings of one method that have the severity [k] and the kind
    [kind]: none of them. *)
Ltac no_such_finding :=
  rewrite issues_of_flat_map; apply flat_map_nil;
  let x := fresh "x" in
  intros x; destruct x; try reflexivity;
  cbn -[Z.ltb Z.sub PyStr.islower String.eqb Re.search walk];
  repeat match goal with
         | |- context [if ?c then _ else _] => destruct c; try reflexivity
         | |- context [match ?n with Name _ _ => _ | _ => _ end] =>
             destruct n; try reflexivity
         | |- context [match ?o with Some _ => _ | None => _ end] =>
             destruct o; try reflexivity
         end.

Ltac split_findings :=
  unfold final_findings, structure_findings, error_handling_findings,
    performance_findings, security_findings, maintainability_findings,
    best_practices_findings, duplication_findings,
    no_error_handling_findings;
  rewrite !issues_of_app.

(** Every group of findings that has none of severity [k] and kind [kind]
    is dropped from the goal. *)
Ltac drop_findings :=
  repeat match goal with
         | |- context [issues_of ?k ?kind ?X] =>
             let H := fresh in
             assert (issues_of k kind X = []) as H
               by (first
                     [ no_such_finding
                     | match X with
                       | if ?c then _ else _ => destruct c; reflexivity
                       end ]);
             rewrite H; clear H
         end;
  rewrite ?app_nil_r; cbn [app].


Section Buckets.

Variable cleandoc : string -> string.
Variables (ls : list string) (t : node).

Lemma final_issues_get (k : Severity) :
  issues_get (final_issues cleandoc ls t) k
  = of_severity k (final_findings cleandoc ls t).
Proof. unfold final_issues. now rewrite issues_extend_get; destruct k. Qed.




Lemma final_hardcoded_secret :
  issues_of Critical "Hardcoded Secret" (final_findings cleandoc ls t)
  = flat_map (fun il => map snd (secret_emit il)) (enumerate ls 1).
Proof.
  split_findings. drop_findings.
  rewrite issues_of_flat_map. apply flat_map_ext. intros [i line].
  unfold secret_emit, issues_of, of_kind, of_severity, secret_patterns.
  cbn -[Re.search].
  repeat match goal with
         | |- context [if ?c then _ else _] => destruct c
         end; reflexivity.
Qed.

End Buckets.

(** ** The metrics *)

Lemma lines_step_frame (ls : list string) :
  forall m,
    functions (fold_left lines_step ls m) = functions m
    /\ classes (fold_left lines_step ls m) = classes m
    /\ complexity (fold_left lines_step ls m) = complexity m.
Proof.
  induction ls as [|l ls IH]; intros m; simpl; [auto|].
  destruct (IH (lines_step m l)) as (Hf & Hc & Hx).
  rewrite Hf, Hc, Hx. unfold lines_step.
  destruct (negb _); [auto|]. destruct (PyStr.startswith _ _); auto.
Qed.

Lemma defs_step_count (xs : list node) :
  forall m,
    functions (fold_left defs_step xs m)
    = functions m + count_if is_FunctionDef xs
    /\ classes (fold_left defs_step xs m)
       = classes m + count_if is_ClassDef xs
    /\ complexity (fold_left defs_step xs m) = complexity m.
Proof.
  induction xs as [|x xs IH]; intros m.
  - unfold count_if. simpl. repeat split; lia.
  - simpl fold_left. destruct (IH (defs_step m x)) as (Hf & Hc & Hx).
    rewrite Hf, Hc, Hx, !count_if_cons.
    destruct x; unfold defs_step, incr_functions, incr_classes;
      cbn [functions classes complexity is_FunctionDef is_ClassDef];
      repeat split; lia.
Qed.

Lemma structure_metrics_frame (t : node) (m : Metrics) :
  functions (structure_metrics t m) = functions m
  /\ classes (structure_metrics t m) = classes m
  /\ complexity (structure_metrics t m) = complexity m.
Proof.
  unfold structure_metrics. destruct (snd _); simpl; auto.
Qed.

(** What the report says of functions, classes and complexity. *)
Lemma final_metrics_counts (ls : list string) (t : node) :
  functions (final_metrics ls t) = count_if is_FunctionDef (preorder t)
  /\ classes (final_metrics ls t) = count_if is_ClassDef (preorder t)
  /\ complexity (final_metrics ls t) = 0.
Proof.
  unfold final_metrics, metrics_counted.
  destruct (structure_metrics_frame t
              (fold_left defs_step (walk t)
                 (fold_left lines_step ls
                    (set_lines_of_code (Z.of_nat (List.length ls))
                       (mkMetrics 0 0 0 0 0 0 0 0%Q)))))
    as (Hf & Hc & Hx).
  rewrite Hf, Hc, Hx.
  destruct (defs_step_count (walk t)
              (fold_left lines_step ls
                 (set_lines_of_code (Z.of_nat (List.length ls))
                    (mkMetrics 0 0 0 0 0 0 0 0%Q))))
    as (Hf' & Hc' & Hx').
  rewrite Hf', Hc', Hx'.
  destruct (lines_step_frame ls
              (set_lines_of_code (Z.of_nat (List.length ls))
                 (mkMetrics 0 0 0 0 0 0 0 0%Q)))
    as (Hf'' & Hc'' & Hx'').
  rewrite Hf'', Hc'', Hx'', !count_if_walk. simpl. auto.
Qed.

(** ** Every category score lies between 0 and 10 *)

Local Open Scope Q_scope.

Lemma structure_step_le (xs : list node) :
  forall acc, fst (fold_left structure_step xs acc) <= fst acc.
Proof.
  induction xs as [|x xs IH]; intros acc; simpl; [lra|].
  eapply Qle_trans; [apply IH|].
  destruct x; simpl; try lra.
  destruct (100 <? _)%Z; simpl; [lra|].
  destruct (50 <? _)%Z; simpl; lra.
Qed.

Lemma structure_raw_le (ls : list string) (t : node) :
  structure_raw ls t <= 10.
Proof.
  unfold structure_raw.
  pose proof (structure_step_le (walk t) (10.0, [])) as H. simpl fst in H.
  destruct (duplicated ls); lra.
Qed.

Lemma error_handling_raw_le (t : node) (n : Z) : error_handling_raw t n <= 10.
Proof.
  unfold error_handling_raw.
  pose proof (fold_penalize_le is_bare_except 2.0 (walk t)) as H.
  specialize (H ltac:(lra) 10.0).
  destruct (no_error_handling t n); lra.
Qed.

Lemma performance_raw_le (t : node) : performance_raw t <= 10.
Proof.
  unfold performance_raw.
  pose proof (fold_penalize_le is_append_loop 0.3 (walk t)) as H.
  specialize (H ltac:(lra) 10.0). lra.
Qed.

Lemma secret_step_le (xs : list (Z * string)) :
  forall score, fold_left secret_step xs score <= score.
Proof.
  induction xs as [|x xs IH]; intros score; simpl; [lra|].
  eapply Qle_trans; [apply IH|].
  unfold secret_step. apply fold_penalize_le. lra.
Qed.

Lemma security_raw_le (ls : list string) (t : node) : security_raw ls t <= 10.
Proof.
  unfold security_raw.
  eapply Qle_trans; [apply fold_penalize_le; lra|].
  eapply Qle_trans; [apply secret_step_le|]. lra.
Qed.

Lemma maintainability_raw_le (cleandoc : string -> string) (t : node) :
  maintainability_raw cleandoc t <= 10.
Proof.
  unfold maintainability_raw.
  destruct (low_documentation cleandoc t), (missing_type_hints cleandoc t);
    lra.
Qed.

Lemma best_practices_raw_le (t : node) : best_practices_raw t <= 10.
Proof.
  unfold best_practices_raw.
  eapply Qle_trans; [apply fold_penalize_le; lra|].
  eapply Qle_trans; [apply fold_penalize_le; lra|]. lra.
Qed.

Lemma final_scores_bounds (cleandoc : string -> string) (ls : list string)
    (t : node) (k : Category) :
  0 <= scores_get (final_scores cleandoc ls t) k <= 10.
Proof.
  destruct k; simpl; (split; [apply max0_nonneg | apply max0_le; [lra|]]).
  - apply structure_raw_le.
  - apply error_handling_raw_le.
  - apply performance_raw_le.
  - apply security_raw_le.
  - apply maintainability_raw_le.
  - apply best_practices_raw_le.
Qed.


Local Close Scope Q_scope.

(** ** The report of a source that parses *)

Section Reported.

Variable parse : string -> SyntaxError + node.
Variable cleandoc : string -> string.
Variables (path source : string) (t : node).
Hypothesis parsed : parse source = inr t.

Lemma analyze_returns :
  fst (analyze parse cleandoc source (__init__ path))
  = inr (final_report cleandoc path source t).
Proof. now rewrite (analyze_parsed parse cleandoc path source t parsed). Qed.

Lemma final_report_bucket (k : Severity) (kind : string) :
  of_kind kind
    (issues_get (Report.issues (final_report cleandoc path source t)) k)
  = issues_of k kind (final_findings cleandoc (PyStr.split_nl source) t).
Proof.
  unfold final_report. cbn [Report.issues]. now rewrite final_issues_get.
Qed.


End Reported.

(** * The claims *)

Local Open Scope Q_scope.

(** C1 (defect of the code).  On a source that fails to parse, [analyze]
    records the single CRITICAL issue "Syntax Error" at the line of the
    error, leaves the metrics and the category scores at zero and runs no
    analyzer, but it does not return a report: [generate_report] reads
    [self.overall_score], which only [_calculate_scores] assigns, and raises
    [AttributeError]. *)
Theorem analyze_syntax_error_raises
    (parse : string -> SyntaxError + node) (cleandoc : string -> string)
    (path source : string) (e : SyntaxError) :
  parse source = inl e ->
  exists self',
    analyze parse cleandoc source (__init__ path)
    = (inl (AttributeError "overall_score"), self')
    /\ issues self'
       = mkIssues
           [mkIssue (err_lineno e) "Syntax Error" (err_str e) "CRITICAL"]
           [] [] []
    /\ metrics self' = mkMetrics 0 0 0 0 0 0 0 0
    /\ scores self' = mkScores 0 0 0 0 0 0
    /\ tree self' = None
    /\ overall_score self' = None.
Proof.
  intros Hparse. eexists. split.
  - apply analyze_unparsed, Hparse.
  - repeat split.
Qed.

Lemma analyze_syntax_error_raises_witness :
  Samples.parse Samples.broken_source = inl Samples.broken_error
  /\ fst (analyze Samples.parse Samples.cleandoc Samples.broken_source
            (__init__ "broken.py"))
     = inl (AttributeError "overall_score").
Proof.
  split; [reflexivity|].
  destruct (analyze_syntax_error_raises Samples.parse Samples.cleandoc
              "broken.py" Samples.broken_source Samples.broken_error
              eq_refl) as (self' & Hrun & _).
  rewrite Hrun. reflexivity.
Defined.



(** C10.  The metrics of every report that [analyze] returns have the field
    [complexity], and its value is 0: [__init__] sets it and no method
    updates it. *)
Theorem complexity_is_always_zero
    (parse : string -> SyntaxError + node) (cleandoc : string -> string)
    (path source : string) (t : node) :
  parse source = inr t ->
  exists report self',
    analyze parse cleandoc source (__init__ path) = (inr report, self')
    /\ complexity (Report.metrics report) = 0%Z
    /\ complexity (metrics self') = 0%Z.
Proof.
  intros Hparse.
  exists (final_report cleandoc path source t),
    (final_state cleandoc path source t).
  split; [now apply analyze_parsed|].
  destruct (final_metrics_counts (PyStr.split_nl source) t) as (_ & _ & Hx).
  split; exact Hx.
Qed.

Lemma complexity_is_always_zero_witness :
  Samples.parse Samples.sample_code_source = inr Samples.sample_code_tree
  /\ exists report,
       fst (analyze Samples.parse Samples.cleandoc
              Samples.sample_code_source
              (__init__ "examples/sample_code.py")) = inr report
       /\ complexity (Report.metrics report) = 0%Z.
Proof.
  split; [reflexivity|].
  destruct (complexity_is_always_zero Samples.parse Samples.cleandoc
              "examples/sample_code.py" Samples.sample_code_source
              Samples.sample_code_tree eq_refl)
    as (report & self' & Hrun & Hx & _).
  exists report. rewrite Hrun. split; [reflexivity | exact Hx].
Defined.



(** *** The secret scan *)

Lemma secret_emit_issues (i : Z) (text : string) :
  map snd (secret_emit (i, text)) = secrets_of_line i text.
Proof.
  unfold secret_emit, secrets_of_line. cbn [fst snd].
  induction secret_patterns as [|p ps IH]; [reflexivity|].
  cbn [flat_map filter].
  destruct (Re.search p text); cbn [map app]; now rewrite IH.
Qed.

Lemma secrets_of_line_length (i : Z) (text : string) :
  Z.of_nat (List.length (secrets_of_line i text))
  = count_if (fun pattern => Re.search pattern text) secret_patterns.
Proof. unfold secrets_of_line, count_if. now rewrite length_map. Qed.

Lemma secrets_at_line (n i : Z) (text : string) :
  at_line n (secrets_of_line i text)
  = if (i =? n)%Z then secrets_of_line i text else [].
Proof.
  unfold secrets_of_line.
  induction (filter _ secret_patterns) as [|p ps IH]; simpl.
  - now destruct (i =? n)%Z.
  - rewrite IH. destruct (i =? n)%Z; reflexivity.
Qed.

Lemma secrets_before (n : Z) (ls : list string) :
  forall start, (n < start)%Z ->
    at_line n
      (flat_map (fun il => secrets_of_line (fst il) (snd il))
         (enumerate ls start)) = [].
Proof.
  induction ls as [|l ls IH]; intros start Hlt; simpl; [reflexivity|].
  unfold at_line in *. rewrite filter_app.
  fold (at_line n (secrets_of_line start l)).
  rewrite secrets_at_line, IH by lia.
  destruct (Z.eqb_spec start n); [lia | reflexivity].
Qed.

(** The issues filed at the line number of a line are the ones of that
    line. *)
Lemma secrets_of_nth (ls : list string) :
  forall start i text,
    nth_error ls i = Some text ->
    at_line (start + Z.of_nat i)
      (flat_map (fun il => secrets_of_line (fst il) (snd il))
         (enumerate ls start))
    = secrets_of_line (start + Z.of_nat i) text.
Proof.
  induction ls as [|l ls IH]; intros start i text Hnth.
  - destruct i; discriminate.
  - simpl. unfold at_line. rewrite filter_app.
    fold (at_line (start + Z.of_nat i) (secrets_of_line start l)).
    fold (at_line (start + Z.of_nat i)
            (flat_map (fun il => secrets_of_line (fst il) (snd il))
               (enumerate ls (start + 1)))).
    rewrite secrets_at_line.
    destruct i as [|i]; simpl in Hnth.
    + injection Hnth as ->. rewrite secrets_before by lia.
      replace (start + Z.of_nat 0)%Z with start by lia.
      rewrite Z.eqb_refl. apply app_nil_r.
    + destruct (Z.eqb_spec start (start + Z.of_nat (S i))); [lia|].
      replace (start + Z.of_nat (S i))%Z with (start + 1 + Z.of_nat i)%Z
        by lia.
      now apply IH.
Qed.

Lemma secret_step_fold (xs : list (Z * string)) :
  forall score,
    fold_left secret_step xs score
    == score
       - 3.0 * inject_Z
                 (Z.of_nat
                    (List.length
                       (flat_map (fun il => secrets_of_line (fst il) (snd il))
                          xs))).
Proof.
  induction xs as [|[i text] xs IH]; intros score.
  - cbn. change (inject_Z 0) with 0. lra.
  - simpl fold_left. rewrite IH. unfold secret_step. rewrite fold_penalize.
    cbn [flat_map fst snd]. rewrite length_app, Nat2Z.inj_add, inject_Z_plus.
    rewrite secrets_of_line_length. lra.
Qed.



(** *** Loops that append *)





(** *** Trees without a [FunctionDef] node *)





Section NoFunctionDef.

Variable cleandoc : string -> string.
Variables (ls : list string) (t : node).
Hypothesis no_def : forall n, In n (walk t) -> is_FunctionDef n = false.









End NoFunctionDef.



(** *** The loop of [main] *)

Lemma main_loop_cons
    (parse : string -> SyntaxError + node) (cleandoc : string -> string)
    (path source : string) (t : node) (rest : list (string * string)) :
  parse source = inr t ->
  main_loop parse cleandoc ((path, source) :: rest)
  = (final_report cleandoc path source t
       :: fst (main_loop parse cleandoc rest),
     snd (main_loop parse cleandoc rest)).
Proof.
  intros Hparse. cbn [main_loop].
  rewrite (analyze_parsed parse cleandoc path source t Hparse).
  now destruct (main_loop parse cleandoc rest).
Qed.

Lemma main_loop_app
    (parse : string -> SyntaxError + node) (cleandoc : string -> string)
    (files rest : list (string * string)) :
  Forall (fun f => exists t, parse (snd f) = inr t) files ->
  exists reports,
    main_loop parse cleandoc (files ++ rest)
    = (reports ++ fst (main_loop parse cleandoc rest),
       snd (main_loop parse cleandoc rest))
    /\ List.length reports = List.length files.
Proof.
  induction 1 as [|[path source] files [t Ht] _ (reports & IH & Hlen)].
  - exists []. cbn [app].
    split; [now destruct (main_loop parse cleandoc rest) | reflexivity].
  - exists (final_report cleandoc path source t :: reports).
    cbn [app]. rewrite (main_loop_cons parse cleandoc path source t) by
      exact Ht.
    rewrite IH. split; [reflexivity | simpl; now rewrite Hlen].
Qed.



(** [analyze] is written for one call per analyzer object: a second call on
    the same object appends to the same lists and counters. *)
Lemma analyze_again_accumulates :
  let first :=
    analyze Samples.parse Samples.cleandoc Samples.pass_function_source
      (__init__ "f.py") in
  let second :=
    analyze Samples.parse Samples.cleandoc Samples.pass_function_source
      (snd first) in
  option_map Report.total_issues
    (match fst first with inr r => Some r | inl _ => None end) = Some 3%Z
  /\ option_map Report.total_issues
       (match fst second with inr r => Some r | inl _ => None end)
     = Some 6%Z.
Proof. split; vm_compute; reflexivity. Qed.

(** *** The readiness block of [print_report] *)

(** After the loop over the category scores, [score] is the last of them. *)
Lemma print_report_reads_best_practices (report : Report.t) :
  let score := best_practices (Report.category_scores report) in
  let critical_issues := critical (Report.issues report) in
  snd (print_report report)
  = if Qle_bool 9.0 score && is_empty_list critical_issues then
      "✅ PRODUCTION READY - Excellent code quality!"%string
    else if Qle_bool 7.0 score && is_empty_list critical_issues then
      "✅ PRODUCTION READY - Good code quality with minor improvements needed"%string
    else if negb (is_empty_list critical_issues) then
      "❌ NOT PRODUCTION READY - Critical issues must be fixed"%string
    else
      "⚠️  NEEDS IMPROVEMENT - Significant refactoring recommended"%string.
Proof. reflexivity. Qed.

(** C2 (defect of the code).  The readiness line is not a function of the
    overall score: [print_report] reuses the variable [score] as the target
    of its loop over the category scores, so the tests of the readiness
    block read the best_practices score.  A file of five catch-all handlers
    has the overall score 8.0 (below 9.0, four stars) and no CRITICAL issue,
    and is reported as "PRODUCTION READY - Excellent code quality!". *)
Theorem readiness_reads_last_category_score
    (parse : string -> SyntaxError + node) (cleandoc : string -> string) :
  parse Samples.five_handlers_source = inr Samples.five_handlers_tree ->
  exists report,
    fst (analyze parse cleandoc Samples.five_handlers_source
           (__init__ "handlers.py")) = inr report
    /\ Report.overall_score report == 8.0
    /\ critical (Report.issues report) = []
    /\ best_practices (Report.category_scores report) == 10.0
    /\ print_report report
       = ("⭐⭐⭐⭐☆"%string,
          "✅ PRODUCTION READY - Excellent code quality!"%string).
Proof.
  intros Hparse.
  exists (final_report cleandoc "handlers.py" Samples.five_handlers_source
            Samples.five_handlers_tree).
  split; [apply analyze_returns; exact Hparse|].
  repeat split; vm_compute; reflexivity.
Qed.

Lemma readiness_reads_last_category_score_witness :
  Samples.parse Samples.five_handlers_source = inr Samples.five_handlers_tree
  /\ exists report,
       fst (analyze Samples.parse Samples.cleandoc
              Samples.five_handlers_source (__init__ "handlers.py"))
       = inr report
       /\ Qle_bool 9.0 (Report.overall_score report) = false
       /\ snd (print_report report)
          = "✅ PRODUCTION READY - Excellent code quality!"%string.
Proof.
  split; [reflexivity|].
  destruct (readiness_reads_last_category_score Samples.parse
              Samples.cleandoc eq_refl)
    as (report & Hrun & _ & _ & _ & Hprint).
  exists report. split; [exact Hrun|].
  revert Hrun Hprint. vm_compute. intros [= <-] _. split; reflexivity.
Defined.

(** *** Documentation and type hints *)

Lemma doc_counts_count (cleandoc : string -> string) (t : node) :
  doc_counts cleandoc t
  = (count_if (is_documented cleandoc) (walk t),
     count_if is_FunctionDef (walk t)).
Proof.
  unfold doc_counts.
  assert (forall xs d n,
             fold_left (fun '(with_docs, total) node =>
               match node with
               | FunctionDef _ _ body _ _ _ _ =>
                   (if has_docstring cleandoc body
                    then with_docs + 1 else with_docs, total + 1)
               | _ => (with_docs, total)
               end) xs (d, n)
             = (d + count_if (is_documented cleandoc) xs,
                n + count_if is_FunctionDef xs))%Z as H.
  { induction xs as [|x xs IH]; intros d n.
    - unfold count_if. simpl. f_equal; lia.
    - simpl fold_left. rewrite !count_if_cons.
      destruct x; rewrite IH; cbn [is_documented is_FunctionDef];
        try (f_equal; lia).
      destruct (has_docstring cleandoc _); f_equal; lia. }
  apply H.
Qed.

Lemma hint_count_count (t : node) :
  hint_count t = count_if is_hinted (walk t).
Proof.
  unfold hint_count.
  assert (forall xs h,
             fold_left (fun with_hints node =>
               match node with
               | FunctionDef _ args _ _ returns _ _ =>
                   if has_type_hints returns args
                   then with_hints + 1 else with_hints
               | _ => with_hints
               end) xs h
             = h + count_if is_hinted xs)%Z as H.
  { induction xs as [|x xs IH]; intros h.
    - unfold count_if. simpl. lia.
    - simpl fold_left. rewrite !count_if_cons.
      destruct x; rewrite IH; cbn [is_hinted]; try lia.
      destruct (has_type_hints _ _); lia. }
  apply H.
Qed.

(** What [_analyze_maintainability] computes: the documented functions are
    the [FunctionDef] nodes with a docstring that is not empty once cleaned,
    and the hinted ones are those with a return annotation or an annotation
    on a parameter of [args.args]. *)
Lemma maintainability_score
    (parse : string -> SyntaxError + node) (cleandoc : string -> string)
    (path source : string) (t : node) :
  parse source = inr t ->
  exists report,
    fst (analyze parse cleandoc source (__init__ path)) = inr report
    /\ let total := count_if is_FunctionDef (preorder t) in
       let documented := count_if (is_documented cleandoc) (preorder t) in
       let hinted := count_if is_hinted (preorder t) in
       maintainability (Report.category_scores report)
       == max0 (10.0
                - (if (0 <? total)%Z && Qltb (coverage documented total) 50
                   then 2.0 else 0)
                - (if (0 <? total)%Z && Qltb (coverage hinted total) 30
                   then 1.0 else 0)).
Proof.
  intros Hparse. exists (final_report cleandoc path source t).
  split; [now apply analyze_returns|].
  unfold final_report. cbn [Report.category_scores final_scores
    maintainability]. cbn zeta.
  apply max0_compat.
  unfold maintainability_raw, low_documentation, missing_type_hints.
  rewrite doc_counts_count, hint_count_count, !count_if_walk.
  destruct (_ && _)%bool, (_ && _)%bool; lra.
Qed.

(** The example of the specification: [def f():] and an indented [pass]. *)
Lemma pass_function_example
    (parse : string -> SyntaxError + node) (cleandoc : string -> string) :
  parse Samples.pass_function_source = inr Samples.pass_function_tree ->
  exists report,
    fst (analyze parse cleandoc Samples.pass_function_source
           (__init__ "f.py")) = inr report
    /\ functions (Report.metrics report) = 1%Z
    /\ classes (Report.metrics report) = 0%Z
    /\ maintainability (Report.category_scores report) == 10.0 - 2.0 - 1.0.
Proof.
  intros Hparse.
  exists (final_report cleandoc "f.py" Samples.pass_function_source
            Samples.pass_function_tree).
  split; [apply analyze_returns; exact Hparse|].
  repeat split; vm_compute; reflexivity.
Qed.

(** C7 (defect of the code).  The type-hint coverage looks only at the
    return annotation and at the parameters of [args.args]: an annotation on
    a keyword-only (or positional-only, [*args], [**kwargs]) parameter is
    not seen.  The documented function of the sample has one parameter,
    keyword-only and annotated [x: int], and the analysis files "Only 0% of
    functions have type hints" and gives the maintainability score
    10.0 - 1.0. *)
Theorem keyword_only_hint_not_counted
    (parse : string -> SyntaxError + node) (cleandoc : string -> string) :
  parse Samples.kwonly_source = inr Samples.kwonly_tree ->
  PyStr.truthy (cleandoc "Doc.") = true ->
  exists report,
    fst (analyze parse cleandoc Samples.kwonly_source (__init__ "f.py"))
    = inr report
    /\ functions (Report.metrics report) = 1%Z
    /\ of_kind "Low Documentation" (medium (Report.issues report)) = []
    /\ of_kind "Missing Type Hints" (low (Report.issues report))
       = [mkIssue (Some 0%Z) "Missing Type Hints"
            "Only 0% of functions have type hints" "LOW"]
    /\ maintainability (Report.category_scores report) == 10.0 - 1.0.
Proof.
  intros Hparse Hdoc.
  exists (final_report cleandoc "f.py" Samples.kwonly_source
            Samples.kwonly_tree).
  split; [apply analyze_returns; exact Hparse|].
  assert (doc_counts cleandoc Samples.kwonly_tree = (1%Z, 1%Z)) as Hcounts.
  { rewrite doc_counts_count.
    unfold count_if. cbv [walk Samples.kwonly_tree preorder walk_queue
      iter_child_nodes Samples.Return opt_list app List.length filter
      is_documented is_FunctionDef has_docstring get_docstring].
    rewrite Hdoc. reflexivity. }
  assert (hint_count Samples.kwonly_tree = 0%Z) as Hhints
    by (vm_compute; reflexivity).
  split; [vm_compute; reflexivity|].
  assert (maintainability_findings cleandoc Samples.kwonly_tree
          = [(Low,
              mkIssue (Some 0%Z) "Missing Type Hints"
                "Only 0% of functions have type hints" "LOW")]) as Hfound.
  { unfold maintainability_findings, low_documentation, missing_type_hints.
    rewrite Hcounts, Hhints. vm_compute. reflexivity. }
  split; [|split].
  - change (medium ?d) with (issues_get d Medium).
    rewrite final_report_bucket. unfold final_findings.
    rewrite Hfound. vm_compute. reflexivity.
  - change (low ?d) with (issues_get d Low).
    rewrite final_report_bucket. unfold final_findings.
    rewrite Hfound. vm_compute. reflexivity.
  - unfold final_report. cbn [Report.category_scores final_scores
      maintainability].
    unfold maintainability_raw, low_documentation, missing_type_hints.
    rewrite Hcounts, Hhints. vm_compute. reflexivity.
Qed.

Lemma keyword_only_hint_not_counted_witness :
  Samples.parse Samples.kwonly_source = inr Samples.kwonly_tree
  /\ PyStr.truthy (Samples.cleandoc "Doc.") = true
  /\ exists report,
       fst (analyze Samples.parse Samples.cleandoc Samples.kwonly_source
              (__init__ "f.py")) = inr report
       /\ maintainability (Report.category_scores report) == 9.
Proof.
  split; [reflexivity|]. split; [reflexivity|].
  destruct (keyword_only_hint_not_counted Samples.parse Samples.cleandoc
              eq_refl eq_refl)
    as (report & Hrun & _ & _ & _ & Hscore).
  exists report. split; [exact Hrun|].
  rewrite Hscore. reflexivity.
Defined.

(** * Further properties of the analyzer *)

Local Close Scope Q_scope.

(** ** The line counts of [_analyze_metrics] *)









(** ** The function lengths of [_analyze_structure] *)









(** ** Long functions and the structure score *)




Lemma structure_step_score (xs : list node) :
  forall acc,
    (fst (fold_left structure_step xs acc)
     == fst acc - 1.0 * inject_Z (count_if is_very_long xs)
        - 0.5 * inject_Z (count_if is_long xs))%Q.
Proof.
  induction xs as [|x xs IH]; intros acc.
  - cbn. change (inject_Z 0) with 0%Q. lra.
  - simpl fold_left. rewrite IH, !count_if_cons, !inject_Z_plus.
    set (high_rest := inject_Z (count_if is_very_long xs)).
    set (medium_rest := inject_Z (count_if is_long xs)).
    destruct x; cbn [structure_step is_very_long is_long is_FunctionDef
      andb]; try (change (inject_Z 0) with 0%Q; lra).
    unfold is_very_long, is_long.
    cbn [is_FunctionDef function_length andb].
    destruct (100 <? _); cbn [fst negb andb];
      [change (inject_Z 1) with 1%Q; change (inject_Z 0) with 0%Q; lra|].
    destruct (50 <? _); cbn [fst];
      change (inject_Z 1) with 1%Q; change (inject_Z 0) with 0%Q; lra.
Qed.



(** ** The duplication heuristic of [_check_duplication] *)












(** ** The critical issues and the security score *)

Lemma of_severity_flat_map {A : Type} (k : Severity)
    (emit : A -> list finding) (xs : list A) :
  of_severity k (flat_map emit xs)
  = flat_map (fun x => of_severity k (emit x)) xs.
Proof.
  induction xs as [|x xs IH]; simpl; [reflexivity|].
  now rewrite of_severity_app, IH.
Qed.

(** A group of findings that has none of severity [k]. *)
Ltac no_such_severity :=
  rewrite of_severity_flat_map; apply flat_map_nil;
  let x := fresh "x" in
  intros x; destruct x; try reflexivity;
  cbn -[Z.ltb Z.sub PyStr.islower String.eqb Re.search walk];
  repeat match goal with
         | |- context [if ?c then _ else _] => destruct c; try reflexivity
         | |- context [match ?n with Name _ _ => _ | _ => _ end] =>
             destruct n; try reflexivity
         | |- context [match ?o with Some _ => _ | None => _ end] =>
             destruct o; try reflexivity
         end.

Ltac drop_severity :=
  repeat match goal with
         | |- context [of_severity ?k ?X] =>
             let H := fresh in
             assert (of_severity k X = []) as H
               by (first
                     [ no_such_severity
                     | match X with
                       | if ?c then _ else _ => destruct c; reflexivity
                       end ]);
             rewrite H; clear H
         end;
  rewrite ?app_nil_r; cbn [app].

Lemma final_critical (cleandoc : string -> string) (ls : list string)
    (t : node) :
  of_severity Critical (final_findings cleandoc ls t)
  = flat_map (fun il => secrets_of_line (fst il) (snd il)) (enumerate ls 1)
    ++ map dangerous_issue (filter is_dangerous_call (walk t)).
Proof.
  unfold final_findings, structure_findings, error_handling_findings,
    performance_findings, security_findings, maintainability_findings,
    best_practices_findings, duplication_findings,
    no_error_handling_findings.
  rewrite !of_severity_app.
  assert (of_severity Critical (flat_map secret_emit (enumerate ls 1))
          = flat_map (fun il => secrets_of_line (fst il) (snd il))
              (enumerate ls 1)) as Hsecrets.
  { rewrite of_severity_flat_map. apply flat_map_ext. intros [i text].
    rewrite <- secret_emit_issues. unfold secret_emit, secret_patterns.
    cbn -[Re.search].
    repeat match goal with
           | |- context [if ?c then _ else _] => destruct c
           end; reflexivity. }
  assert (of_severity Critical (flat_map dangerous_emit (walk t))
          = map dangerous_issue (filter is_dangerous_call (walk t)))
    as Hcalls.
  { rewrite of_severity_flat_map. apply flat_map_select.
    intros x. destruct x; try reflexivity.
    match goal with
    | |- context [Call ?f _ _ _] => destruct f; try reflexivity
    end.
    unfold is_dangerous_call, dangerous_call, dangerous_emit.
    destruct (_ || _); reflexivity. }
  rewrite Hsecrets, Hcalls.
  set (secrets := flat_map _ (enumerate ls 1)).
  set (calls := map dangerous_issue _).
  drop_severity. reflexivity.
Qed.



(** ** Prints, names and the best-practices score *)





(** ** Severity labels *)

Lemma Forall_flat_map_emit {A : Type} (emit : A -> list finding)
    (xs : list A) :
  (forall x, Forall well_labelled (emit x)) ->
  Forall well_labelled (flat_map emit xs).
Proof.
  intros H. induction xs as [|x xs IH]; simpl; [constructor|].
  apply Forall_app. split; [apply H | exact IH].
Qed.

Ltac labelled :=
  repeat match goal with
         | |- Forall well_labelled (_ ++ _) => apply Forall_app; split
         | |- Forall well_labelled (if ?c then _ else _) => destruct c
         | |- Forall well_labelled [] => constructor
         | |- Forall well_labelled (_ :: _) =>
             constructor; [reflexivity|]
         | |- Forall well_labelled (match ?n with Name _ _ => _ | _ => _ end)
           => destruct n
         | |- Forall well_labelled
                (match ?o with Some _ => _ | None => _ end) => destruct o
         end.

Lemma final_findings_labelled (cleandoc : string -> string)
    (ls : list string) (t : node) :
  Forall well_labelled (final_findings cleandoc ls t).
Proof.
  unfold final_findings, structure_findings, error_handling_findings,
    performance_findings, security_findings, maintainability_findings,
    best_practices_findings, duplication_findings,
    no_error_handling_findings.
  repeat (apply Forall_app; split);
    try (apply Forall_flat_map_emit; intros x; destruct x;
         cbn -[Z.ltb Z.sub PyStr.islower String.eqb Re.search walk];
         labelled);
    labelled.
Qed.

Lemma of_severity_In (k : Severity) (i : Issue) (found : list finding) :
  In i (of_severity k found) -> In (k, i) found.
Proof.
  unfold of_severity. rewrite in_flat_map. intros ([k' i'] & Hin & Hi).
  cbn [fst snd] in Hi.
  destruct k', k; cbn in Hi; try contradiction;
    destruct Hi as [<-|[]]; exact Hin.
Qed.

(** X7.  Every issue of a report carries the severity of the list it is
    in: the issues under [critical] say CRITICAL, those under [high] say
    HIGH, and so on. *)
Theorem issues_carry_their_severity
    (parse : string -> SyntaxError + node) (cleandoc : string -> string)
    (path source : string) (t : node) :
  parse source = inr t ->
  exists report,
    fst (analyze parse cleandoc source (__init__ path)) = inr report
    /\ forall k i,
         In i (issues_get (Report.issues report) k) ->
         severity i = severity_label k.
Proof.
  intros Hparse. exists (final_report cleandoc path source t).
  split; [now apply analyze_returns|].
  intros k i Hin. unfold final_report in Hin. cbn [Report.issues] in Hin.
  rewrite final_issues_get in Hin. apply of_severity_In in Hin.
  pose proof (final_findings_labelled cleandoc (PyStr.split_nl source) t)
    as Hall.
  rewrite Forall_forall in Hall. exact (Hall _ Hin).
Qed.

Lemma issues_carry_their_severity_witness :
  Samples.parse Samples.sample_code_source = inr Samples.sample_code_tree
  /\ exists report,
       fst (analyze Samples.parse Samples.cleandoc
              Samples.sample_code_source
              (__init__ "examples/sample_code.py")) = inr report
       /\ Forall (fun i => severity i = "HIGH")
            (high (Report.issues report)).
Proof.
  split; [reflexivity|].
  destruct (issues_carry_their_severity Samples.parse Samples.cleandoc
              "examples/sample_code.py" Samples.sample_code_source
              Samples.sample_code_tree eq_refl)
    as (report & Hrun & Hlabel).
  exists report. split; [exact Hrun|].
  apply Forall_forall. intros i Hi. exact (Hlabel High i Hi).
Defined.

(** ** Every finding is in exactly one list *)

Lemma all_issues_append (k : Severity) (i : Issue) (d : Issues) :
  Permutation (all_issues (issues_append k i d)) (all_issues d ++ [i]).
Proof.
  unfold all_issues.
  destruct k, d; cbn [issues_append critical high medium low];
    rewrite <- !app_assoc; repeat apply Permutation_app_head;
    first [ reflexivity
          | cbn [app]; rewrite ?app_assoc; apply Permutation_cons_append ].
Qed.

Lemma all_issues_extend (found : list finding) :
  forall d,
    Permutation (all_issues (issues_extend found d))
      (all_issues d ++ map snd found).
Proof.
  induction found as [|[k i] found IH]; intros d.
  - simpl. now rewrite app_nil_r.
  - change (issues_extend ((k, i) :: found) d)
      with (issues_extend found (issues_append k i d)).
    rewrite IH, all_issues_append, <- app_assoc. reflexivity.
Qed.

Lemma final_all_issues (cleandoc : string -> string) (ls : list string)
    (t : node) :
  Permutation (all_issues (final_issues cleandoc ls t))
    (map snd (final_findings cleandoc ls t)).
Proof. unfold final_issues. now rewrite all_issues_extend. Qed.

(** ** Every score is 10 minus the penalties of its issues *)

Local Open Scope Q_scope.

Lemma sum_Q_app (l1 l2 : list Q) : sum_Q (l1 ++ l2) == sum_Q l1 + sum_Q l2.
Proof.
  induction l1 as [|x l1 IH]; simpl; [lra|]. rewrite IH. lra.
Qed.

Lemma sum_Q_perm (l l' : list Q) : Permutation l l' -> sum_Q l == sum_Q l'.
Proof.
  induction 1; simpl; lra.
Qed.

Lemma charged_perm (c : Category) (l l' : list Issue) :
  Permutation l l' -> charged c l == charged c l'.
Proof.
  intros H. apply sum_Q_perm, Permutation_map, filter_perm, H.
Qed.

Lemma charged_app (c : Category) (l1 l2 : list Issue) :
  charged c (l1 ++ l2) == charged c l1 + charged c l2.
Proof. unfold charged. now rewrite filter_app, map_app, sum_Q_app. Qed.

Lemma charged_nonneg (c : Category) (l : list Issue) : 0 <= charged c l.
Proof.
  unfold charged. induction l as [|i l IH]; simpl; [lra|].
  destruct (in_category c i); [|exact IH]. simpl.
  assert (0 <= penalty_of i).
  { unfold penalty_of.
    repeat match goal with
           | |- context [if ?b then _ else _] => destruct b
           end; lra. }
  lra.
Qed.

(** The penalties of the findings of a loop, element by element. *)
Lemma charged_flat_map {A : Type} (c : Category) (emit : A -> list finding)
    (cost : A -> Q) (xs : list A) :
  (forall x, charged c (map snd (emit x)) == cost x) ->
  charged c (map snd (flat_map emit xs)) == sum_Q (map cost xs).
Proof.
  intros H. induction xs as [|x xs IH]; simpl; [reflexivity|].
  now rewrite map_app, charged_app, H, IH.
Qed.

Lemma sum_Q_zero {A : Type} (xs : list A) :
  sum_Q (map (fun _ => 0) xs) == 0.
Proof. induction xs as [|x xs IH]; simpl; [reflexivity|]. rewrite IH. lra. Qed.

Lemma sum_Q_indicator {A : Type} (p : A -> bool) (a : Q) (xs : list A) :
  sum_Q (map (fun x => if p x then a else 0) xs)
  == a * inject_Z (count_if p xs).
Proof.
  induction xs as [|x xs IH].
  - cbn. change (inject_Z 0) with 0. lra.
  - cbn [map sum_Q fold_right]. fold (sum_Q (map (fun x => if p x then a
      else 0) xs)). rewrite IH, count_if_cons, inject_Z_plus.
    destruct (p x); [change (inject_Z 1) with 1 | change (inject_Z 0) with 0];
      lra.
Qed.

Lemma sum_Q_ext {A : Type} (f g : A -> Q) (xs : list A) :
  (forall x, f x == g x) -> sum_Q (map f xs) == sum_Q (map g xs).
Proof.
  intros H. induction xs as [|x xs IH]; simpl; [reflexivity|].
  now rewrite H, IH.
Qed.

Lemma sum_Q_plus {A : Type} (f g : A -> Q) (xs : list A) :
  sum_Q (map (fun x => f x + g x) xs)
  == sum_Q (map f xs) + sum_Q (map g xs).
Proof.
  induction xs as [|x xs IH]; simpl; [lra|].
  fold (sum_Q (map (fun x => f x + g x) xs)).
  fold (sum_Q (map f xs)). fold (sum_Q (map g xs)). rewrite IH. lra.
Qed.

Lemma charged_cons (c : Category) (k : Severity) (i : Issue)
    (rest : list finding) :
  charged c (map snd ((k, i) :: rest))
  == (if in_category c i then penalty_of i else 0)
     + charged c (map snd rest).
Proof.
  unfold charged. cbn [map snd filter].
  destruct (in_category c i); unfold sum_Q; cbn [map fold_right]; lra.
Qed.

(** The penalty of an explicit list of findings, by computation. *)
Ltac charge :=
  cbn [app flat_map];
  repeat match goal with
         | |- context [charged ?c (map snd ?l)] =>
             lazymatch l with
             | nil => idtac
             | cons _ _ => idtac
             end;
             let v := eval lazy in (charged c (map snd l)) in
             change (charged c (map snd l)) with v
         end.

Ltac cases_of_emit :=
  cbn [structure_emit bare_except_emit append_loop_emit secret_emit
       dangerous_emit print_emit naming_emit flat_map secret_patterns app
       fst snd];
  repeat match goal with
         | |- context [if ?c then _ else _] => destruct c
         | |- context [match ?n with Name _ _ => _ | _ => _ end] =>
             destruct n
         | |- context [match ?o with Some _ => _ | None => _ end] =>
             destruct o
         end.

(** A loop none of whose findings belongs to the category [c]. *)
Ltac uncharged_loops :=
  repeat match goal with
         | |- context [charged ?c (map snd (flat_map ?emit ?xs))] =>
             let H := fresh in
             assert (charged c (map snd (flat_map emit xs)) == 0) as H
               by (rewrite (charged_flat_map c emit (fun _ => 0));
                   [ apply sum_Q_zero
                   | let x := fresh "x" in
                     intros x; destruct x; cases_of_emit; charge; lra ]);
             rewrite H; clear H
         end.

Ltac split_charged :=
  unfold final_findings, structure_findings, error_handling_findings,
    performance_findings, security_findings, maintainability_findings,
    best_practices_findings, duplication_findings,
    no_error_handling_findings;
  rewrite ?map_app, ?charged_app.

Section Charged.

Variable cleandoc : string -> string.
Variables (ls : list string) (t : node).

Lemma charged_structure :
  charged Structure (map snd (final_findings cleandoc ls t))
  == 10.0 - structure_raw ls t.
Proof.
  split_charged. uncharged_loops.
  rewrite (charged_flat_map Structure structure_emit
             (fun x => (if is_very_long x then 1.0 else 0)
                       + (if is_long x then 0.5 else 0))).
  2:{ intros x. unfold is_very_long, is_long.
      destruct x;
        cbn [is_FunctionDef function_length andb negb structure_emit];
        try (charge; lra).
      destruct (100 <? _)%Z; cbn [andb negb]; [charge; lra|].
      destruct (50 <? _)%Z; charge; lra. }
  rewrite sum_Q_plus, !sum_Q_indicator.
  unfold structure_raw.
  pose proof (structure_step_score (walk t) (10.0, [])) as Hfold.
  cbn [fst] in Hfold.
  destruct (duplicated ls), (no_error_handling _ _),
    (low_documentation _ _), (missing_type_hints _ _); charge; lra.
Qed.

Lemma charged_error_handling :
  charged ErrorHandling (map snd (final_findings cleandoc ls t))
  == 10.0 - error_handling_raw t (functions (final_metrics ls t)).
Proof.
  split_charged. uncharged_loops.
  rewrite (charged_flat_map ErrorHandling bare_except_emit
             (fun x => if is_bare_except x then 2.0 else 0)).
  2:{ intros x. destruct x; cbn [is_bare_except bare_except_emit];
        try (charge; lra).
      match goal with
      | |- context [match ?o with Some _ => _ | None => _ end] =>
          destruct o; charge; lra
      end. }
  rewrite sum_Q_indicator. unfold error_handling_raw.
  pose proof (fold_penalize is_bare_except 2.0 (walk t) 10.0) as Hfold.
  destruct (duplicated ls), (no_error_handling _ _),
    (low_documentation _ _), (missing_type_hints _ _); charge; lra.
Qed.

Lemma charged_performance :
  charged Performance (map snd (final_findings cleandoc ls t))
  == 10.0 - performance_raw t.
Proof.
  split_charged. uncharged_loops.
  rewrite (charged_flat_map Performance append_loop_emit
             (fun x => if is_append_loop x then 0.3 else 0)).
  2:{ intros x. unfold is_append_loop.
      destruct x; cbn [is_For andb append_loop_emit]; try (charge; lra).
      destruct (existsb _ _); charge; lra. }
  rewrite sum_Q_indicator. unfold performance_raw.
  pose proof (fold_penalize is_append_loop 0.3 (walk t) 10.0) as Hfold.
  destruct (duplicated ls), (no_error_handling _ _),
    (low_documentation _ _), (missing_type_hints _ _); charge; lra.
Qed.

Lemma charged_repeated (c : Category) (i : Issue) {A : Type} (l : list A) :
  charged c (map (fun _ => i) l)
  == (if in_category c i then penalty_of i else 0)
     * inject_Z (Z.of_nat (List.length l)).
Proof.
  unfold charged. induction l as [|x l IH].
  - cbn. change (inject_Z 0) with 0. lra.
  - cbn [map filter List.length]. rewrite Nat2Z.inj_succ.
    unfold Z.succ. rewrite inject_Z_plus. change (inject_Z 1) with 1.
    destruct (in_category c i); unfold sum_Q in *; cbn [map fold_right];
      lra.
Qed.

Lemma secret_costs (xs : list (Z * string)) :
  sum_Q
    (map (fun il =>
            3.0 * inject_Z
                    (Z.of_nat
                       (List.length (secrets_of_line (fst il) (snd il)))))
       xs)
  == 3.0 * inject_Z
             (Z.of_nat
                (List.length
                   (flat_map (fun il => secrets_of_line (fst il) (snd il))
                      xs))).
Proof.
  induction xs as [|x xs IH].
  - cbn. change (inject_Z 0) with 0. lra.
  - cbn [map flat_map]. rewrite length_app, Nat2Z.inj_add, inject_Z_plus.
    unfold sum_Q in *. cbn [fold_right]. rewrite IH. lra.
Qed.

Lemma charged_security :
  charged Security (map snd (final_findings cleandoc ls t))
  == 10.0 - security_raw ls t.
Proof.
  split_charged. uncharged_loops.
  rewrite (charged_flat_map Security secret_emit
             (fun il =>
                3.0 * inject_Z
                        (Z.of_nat
                           (List.length
                              (secrets_of_line (fst il) (snd il)))))).
  2:{ intros [i text]. rewrite secret_emit_issues. unfold secrets_of_line.
      rewrite charged_repeated. cbn [fst snd]. rewrite length_map.
      reflexivity. }
  rewrite (charged_flat_map Security dangerous_emit
             (fun x => if is_dangerous_call x then 3.0 else 0)).
  2:{ intros x.
      destruct x; cbn [dangerous_emit is_dangerous_call dangerous_call];
        try (charge; lra).
      match goal with
      | |- context [Call ?f _ _ _] =>
          destruct f; cbn [dangerous_emit is_dangerous_call dangerous_call];
          try (charge; lra)
      end.
      unfold is_dangerous_call, dangerous_call.
      destruct (_ || _)%bool; charge; lra. }
  rewrite sum_Q_indicator, secret_costs. unfold security_raw.
  pose proof (fold_penalize is_dangerous_call 3.0 (walk t)
                (fold_left secret_step (enumerate ls 1%Z) 10.0)) as Hfold.
  pose proof (secret_step_fold (enumerate ls 1%Z) 10.0) as Hsecrets.
  destruct (duplicated ls), (no_error_handling _ _),
    (low_documentation _ _), (missing_type_hints _ _); charge; lra.
Qed.

Lemma charged_maintainability :
  charged Maintainability (map snd (final_findings cleandoc ls t))
  == 10.0 - maintainability_raw cleandoc t.
Proof.
  split_charged. uncharged_loops. unfold maintainability_raw.
  destruct (duplicated ls), (no_error_handling _ _),
    (low_documentation _ _), (missing_type_hints _ _); charge; lra.
Qed.

Lemma charged_best_practices :
  charged BestPractices (map snd (final_findings cleandoc ls t))
  == 10.0 - best_practices_raw t.
Proof.
  split_charged. uncharged_loops.
  rewrite (charged_flat_map BestPractices print_emit
             (fun x => if is_print_call x then 0.2 else 0)).
  2:{ intros x.
      destruct x; cbn [print_emit is_print_call]; try (charge; lra).
      match goal with
      | |- context [match ?f with Name _ _ => _ | _ => _ end] =>
          destruct f; cbn [print_emit is_print_call]; try (charge; lra)
      end.
      unfold is_print_call.
      destruct (String.eqb _ _); charge; lra. }
  rewrite (charged_flat_map BestPractices naming_emit
             (fun x => if is_misnamed x then 0.3 else 0)).
  2:{ intros x.
      destruct x; cbn [naming_emit is_misnamed]; try (charge; lra).
      unfold is_misnamed.
      destruct (_ && _)%bool; charge; lra. }
  rewrite !sum_Q_indicator. unfold best_practices_raw.
  pose proof (fold_penalize is_print_call 0.2 (walk t) 10.0) as Hprints.
  pose proof (fold_penalize is_misnamed 0.3 (walk t)
                (fold_left (penalize is_print_call 0.2) (walk t) 10.0))
    as Hnames.
  destruct (duplicated ls), (no_error_handling _ _),
    (low_documentation _ _), (missing_type_hints _ _); charge; lra.
Qed.

(** The score of each category, from the issues of the report. *)
Lemma final_scores_charged (c : Category) :
  scores_get (final_scores cleandoc ls t) c
  == max0 (10.0 - charged c (all_issues (final_issues cleandoc ls t))).
Proof.
  pose proof (charged_perm c _ _ (final_all_issues cleandoc ls t)) as Hperm.
  destruct c; cbn [scores_get final_scores structure error_handling
    performance security maintainability best_practices];
    apply max0_compat; rewrite Hperm.
  - rewrite charged_structure. lra.
  - rewrite charged_error_handling. lra.
  - rewrite charged_performance. lra.
  - rewrite charged_security. lra.
  - rewrite charged_maintainability. lra.
  - rewrite charged_best_practices. lra.
Qed.

End Charged.



(** ** A perfect score *)

Ltac penalised :=
  repeat match goal with
         | |- Forall _ (_ ++ _) => apply Forall_app; split
         | |- Forall _ (if ?c then _ else _) => destruct c
         | |- Forall _ [] => constructor
         | |- Forall _ (match ?n with Name _ _ => _ | _ => _ end) =>
             destruct n
         | |- Forall _ (match ?o with Some _ => _ | None => _ end) =>
             destruct o
         | |- Forall (fun f => has_penalty (snd f)) ((_, ?i) :: _) =>
             constructor;
             [ cbn [snd];
               let c := eval lazy in (category_of_kind (issue i)) in
               let q := eval lazy in (penalty_of i) in
               match c with
               | Some ?c0 =>
                   exists c0; split;
                   [ reflexivity | change (penalty_of i) with q; lra ]
               end
             | ]
         end.

Lemma Forall_flat_map_any {A B : Type} (P : B -> Prop) (f : A -> list B)
    (xs : list A) :
  (forall x, Forall P (f x)) -> Forall P (flat_map f xs).
Proof.
  intros H. induction xs as [|x xs IH]; simpl; [constructor|].
  apply Forall_app. split; [apply H | exact IH].
Qed.

Lemma final_findings_penalised (cleandoc : string -> string)
    (ls : list string) (t : node) :
  Forall (fun f => has_penalty (snd f)) (final_findings cleandoc ls t).
Proof.
  unfold final_findings, structure_findings, error_handling_findings,
    performance_findings, security_findings, maintainability_findings,
    best_practices_findings, duplication_findings,
    no_error_handling_findings.
  repeat (apply Forall_app; split);
    try (apply Forall_flat_map_any; intros x; destruct x;
         cbn [structure_emit bare_except_emit append_loop_emit secret_emit
              dangerous_emit print_emit naming_emit flat_map
              secret_patterns app fst snd];
         try unfold hardcoded_secret;
         penalised);
    penalised.
Qed.

Lemma charged_In (c : Category) (i : Issue) (l : list Issue) :
  In i l -> in_category c i = true -> penalty_of i <= charged c l.
Proof.
  intros Hin Hc. apply in_split in Hin. destruct Hin as (l1 & l2 & ->).
  rewrite charged_app.
  pose proof (charged_nonneg c l1). pose proof (charged_nonneg c l2).
  change (i :: l2) with ([i] ++ l2). rewrite charged_app.
  unfold charged at 2. cbn [filter]. rewrite Hc. cbn [map].
  unfold sum_Q at 1. cbn [fold_right]. lra.
Qed.

Lemma total_issues_length (d : Issues) :
  list_sum_Z
    (map (fun k => Z.of_nat (List.length (issues_get d k)))
       [Critical; High; Medium; Low])
  = Z.of_nat (List.length (all_issues d)).
Proof.
  unfold all_issues, list_sum_Z. cbn [map fold_left issues_get].
  rewrite !length_app. lia.
Qed.

(** X9.  [total_issues] is the number of issues of the four lists.  A
    report without issue has every category score and the overall score at
    10; a report with an issue has an overall score (before rounding)
    below 10. *)
Theorem perfect_score_iff_no_issue
    (parse : string -> SyntaxError + node) (cleandoc : string -> string)
    (path source : string) (t : node) :
  parse source = inr t ->
  exists report self' overall,
    analyze parse cleandoc source (__init__ path) = (inr report, self')
    /\ overall_score self' = Some overall
    /\ Report.total_issues report
       = Z.of_nat (List.length (all_issues (Report.issues report)))
    /\ (Report.total_issues report = 0%Z ->
        (forall c, scores_get (Report.category_scores report) c == 10)
        /\ overall == 10 /\ Report.overall_score report == 10)
    /\ ((0 < Report.total_issues report)%Z -> overall < 10).
Proof.
  intros Hparse.
  exists (final_report cleandoc path source t),
    (final_state cleandoc path source t),
    (weighted_sum (final_scores cleandoc (PyStr.split_nl source) t)).
  set (ls := PyStr.split_nl source).
  split; [now apply analyze_parsed|]. split; [reflexivity|].
  assert (Report.total_issues (final_report cleandoc path source t)
          = Z.of_nat
              (List.length (all_issues (final_issues cleandoc ls t))))
    as Htotal by apply total_issues_length.
  split; [exact Htotal|].
  pose proof (final_scores_charged cleandoc ls t) as Hscores.
  pose proof (final_scores_bounds cleandoc ls t) as Hbounds.
  split.
  - intros Hzero. rewrite Htotal in Hzero.
    destruct (all_issues (final_issues cleandoc ls t)) eqn:Hall;
      [|discriminate Hzero].
    assert (forall c, scores_get (final_scores cleandoc ls t) c == 10)
      as Hten.
    { intros c. rewrite (Hscores c). change (charged c []) with 0.
      vm_compute. reflexivity. }
    split; [exact Hten|].
    assert (weighted_sum (final_scores cleandoc ls t) == 10) as Hw.
    { unfold weighted_sum.
      pose proof (Hten Structure). pose proof (Hten ErrorHandling).
      pose proof (Hten Performance). pose proof (Hten Security).
      pose proof (Hten Maintainability). pose proof (Hten BestPractices).
      cbn [scores_get] in *. lra. }
    split; [exact Hw|].
    unfold final_report. cbn [Report.overall_score]. fold ls.
    unfold round1.
    destruct (round_half_even_bounds
                (weighted_sum (final_scores cleandoc ls t) * 10) 100 100)
      as [Hlo Hhi].
    + change (inject_Z 100) with 100. lra.
    + change (inject_Z 100) with 100. lra.
    + replace (round_half_even _) with 100%Z by lia. reflexivity.
  - intros Hsome. rewrite Htotal in Hsome.
    destruct (all_issues (final_issues cleandoc ls t)) as [|i rest] eqn:Hall;
      [cbn in Hsome; lia|].
    assert (In i (map snd (final_findings cleandoc ls t))) as Hin.
    { apply (Permutation_in _ (final_all_issues cleandoc ls t)).
      fold ls. rewrite Hall. now left. }
    apply in_map_iff in Hin. destruct Hin as (f & <- & Hf).
    pose proof (final_findings_penalised cleandoc ls t) as Hpen.
    rewrite Forall_forall in Hpen.
    destruct (Hpen f Hf) as (c & Hc & Hpos).
    assert (penalty_of (snd f) <= charged c (snd f :: rest)) as Hle
      by (apply charged_In; [now left | exact Hc]).
    assert (scores_get (final_scores cleandoc ls t) c < 10) as Hlow.
    { rewrite (Hscores c). unfold max0.
      destruct (Qle_bool _ 0); lra. }
    unfold weighted_sum.
    pose proof (Hbounds Structure). pose proof (Hbounds ErrorHandling).
    pose proof (Hbounds Performance). pose proof (Hbounds Security).
    pose proof (Hbounds Maintainability). pose proof (Hbounds BestPractices).
    destruct c; cbn [scores_get] in *; lra.
Qed.

Lemma perfect_score_iff_no_issue_witness :
  Samples.parse Samples.sample_code_source = inr Samples.sample_code_tree
  /\ exists report,
       fst (analyze Samples.parse Samples.cleandoc
              Samples.sample_code_source
              (__init__ "examples/sample_code.py")) = inr report
       /\ Report.total_issues report = 6%Z.
Proof.
  split; [reflexivity|].
  destruct (perfect_score_iff_no_issue Samples.parse Samples.cleandoc
              "examples/sample_code.py" Samples.sample_code_source
              Samples.sample_code_tree eq_refl)
    as (report & self' & overall & Hrun & _ & Htotal & _).
  exists report. rewrite Hrun. split; [reflexivity|].
  rewrite Htotal. revert Hrun. vm_compute. intros [= <- _]. reflexivity.
Defined.

Local Close Scope Q_scope.

(** ** Critical issues and the readiness line *)

Lemma readiness_veto (report : Report.t) :
  (critical (Report.issues report) <> [] ->
   snd (print_report report) = not_production_ready)
  /\ (critical (Report.issues report) = [] ->
      snd (print_report report) <> not_production_ready).
Proof.
  rewrite print_report_reads_best_practices. cbn zeta.
  destruct (critical (Report.issues report)) as [|i l]; cbn [is_empty_list].
  - split; [congruence|]. intros _. rewrite !andb_true_r.
    destruct (Qle_bool 9.0 _); [discriminate|].
    destruct (Qle_bool 7.0 _); discriminate.
  - split; [|discriminate]. intros _. rewrite !andb_false_r. reflexivity.
Qed.

(** X10.  A hardcoded secret or a call of [eval] or [exec] vetoes
    readiness: when some line of the file matches one of the secret
    patterns, or the tree has a call of the bare name [eval] or [exec],
    [print_report] prints "NOT PRODUCTION READY" whatever the scores are;
    and it prints that line for no report without a critical issue. *)
Theorem critical_issue_vetoes_readiness
    (parse : string -> SyntaxError + node) (cleandoc : string -> string)
    (path source : string) (t : node) :
  parse source = inr t ->
  exists report,
    fst (analyze parse cleandoc source (__init__ path)) = inr report
    /\ ((exists i text pattern,
            nth_error (PyStr.split_nl source) i = Some text
            /\ In pattern secret_patterns
            /\ Re.search pattern text = true) ->
        snd (print_report report) = not_production_ready)
    /\ ((exists n, In n (preorder t) /\ is_dangerous_call n = true) ->
        snd (print_report report) = not_production_ready)
    /\ (critical (Report.issues report) = [] ->
        snd (print_report report) <> not_production_ready).
Proof.
  intros Hparse. exists (final_report cleandoc path source t).
  split; [now apply analyze_returns|].
  set (ls := PyStr.split_nl source).
  assert (critical (Report.issues (final_report cleandoc path source t))
          = flat_map (fun il => secrets_of_line (fst il) (snd il))
              (enumerate ls 1)
            ++ map dangerous_issue (filter is_dangerous_call (walk t)))
    as Hcritical.
  { change (critical ?d) with (issues_get d Critical).
    unfold final_report. cbn [Report.issues].
    rewrite final_issues_get. apply final_critical. }
  destruct (readiness_veto (final_report cleandoc path source t))
    as [Hveto Hfree].
  split; [|split; [|exact Hfree]].
  - intros (i & text & pattern & Hnth & Hin & Hsearch).
    apply Hveto. rewrite Hcritical. intros Hnil.
    apply app_eq_nil in Hnil. destruct Hnil as [Hnil _].
    pose proof (secrets_of_nth ls 1 i text Hnth) as Hat.
    rewrite Hnil in Hat. unfold at_line, secrets_of_line in Hat.
    cbn [filter] in Hat.
    assert (In pattern
              (filter (fun pattern => Re.search pattern text)
                 secret_patterns)) as Hfound
      by (apply filter_In; now split).
    destruct (filter _ secret_patterns);
      [destruct Hfound | discriminate Hat].
  - intros (n & Hn & Hcall).
    apply Hveto. rewrite Hcritical. intros Hnil.
    apply app_eq_nil in Hnil. destruct Hnil as [_ Hnil].
    assert (In n (filter is_dangerous_call (walk t))) as Hfound
      by (apply filter_In; split; [now apply walk_In | exact Hcall]).
    destruct (filter _ (walk t)); [destruct Hfound | discriminate Hnil].
Qed.

Lemma critical_issue_vetoes_readiness_witness :
  Samples.parse Samples.sample_code_source = inr Samples.sample_code_tree
  /\ exists report,
       fst (analyze Samples.parse Samples.cleandoc
              Samples.sample_code_source
              (__init__ "examples/sample_code.py")) = inr report
       /\ snd (print_report report) = not_production_ready.
Proof.
  split; [reflexivity|].
  destruct (critical_issue_vetoes_readiness Samples.parse Samples.cleandoc
              "examples/sample_code.py" Samples.sample_code_source
              Samples.sample_code_tree eq_refl)
    as (report & Hrun & Hsecret & _).
  exists report. split; [exact Hrun|].
  apply Hsecret.
  exists 15%nat,
    (nth 15 (PyStr.split_nl Samples.sample_code_source) EmptyString),
    (nth 0 secret_patterns []).
  split; [reflexivity|]. split; [now left | vm_compute; reflexivity].
Defined.

(** ** A file that does not parse ends the run *)

(** X11.  [main] analyses the files in order and stops at the first one
    that fails to parse: the reports of the files before it have been
    produced, the exception of [generate_report] ends the program, and the
    files after it are never analysed. *)
Theorem main_stops_at_syntax_error
    (parse : string -> SyntaxError + node) (cleandoc : string -> string)
    (before after : list (string * string)) (path source : string)
    (e : SyntaxError) :
  Forall (fun f => exists t, parse (snd f) = inr t) before ->
  parse source = inl e ->
  exists reports,
    main_loop parse cleandoc (before ++ (path, source) :: after)
    = (reports, Some (AttributeError "overall_score"))
    /\ List.length reports = List.length before
    /\ main_loop parse cleandoc (before ++ (path, source) :: after)
       = main_loop parse cleandoc (before ++ [(path, source)]).
Proof.
  intros Hbefore Hparse.
  assert (forall rest,
             main_loop parse cleandoc ((path, source) :: rest)
             = ([], Some (AttributeError "overall_score"))) as Hstop.
  { intros rest. cbn [main_loop].
    now rewrite (analyze_unparsed parse cleandoc path source e Hparse). }
  destruct (main_loop_app parse cleandoc before ((path, source) :: after)
              Hbefore) as (reports & Hrun & Hlen).
  destruct (main_loop_app parse cleandoc before [(path, source)] Hbefore)
    as (reports' & Hrun' & _).
  rewrite Hstop in Hrun, Hrun'. cbn [fst snd] in Hrun, Hrun'.
  rewrite app_nil_r in Hrun, Hrun'.
  exists reports. split; [exact Hrun|]. split; [exact Hlen|].
  rewrite Hrun, Hrun'.
  assert (reports = reports') as ->; [|reflexivity].
  clear - Hbefore Hrun Hrun' Hstop.
  revert reports reports' Hrun Hrun'.
  induction Hbefore as [|[p s] before [t Ht] _ IH]; intros reports reports'.
  - cbn [app]. rewrite !Hstop. now intros [= <-] [= <-].
  - cbn [app].
    rewrite !(main_loop_cons parse cleandoc p s t) by exact Ht.
    intros H1 H2.
    destruct (main_loop parse cleandoc (before ++ (path, source) :: after))
      as [r1 x1] eqn:E1.
    destruct (main_loop parse cleandoc (before ++ [(path, source)]))
      as [r2 x2] eqn:E2.
    cbn [fst snd] in H1, H2.
    injection H1 as H1 ->. injection H2 as H2 ->.
    destruct reports as [|a reports]; [discriminate H1|].
    destruct reports' as [|a' reports']; [discriminate H2|].
    cbn [app] in H1, H2. injection H1 as <- H1. injection H2 as <- H2.
    f_equal. apply IH.
    + now rewrite <- H1.
    + now rewrite <- H2.
Qed.

Lemma main_stops_at_syntax_error_witness :
  Forall (fun f => exists t, Samples.parse (snd f) = inr t)
    [("examples/sample_code.py", Samples.sample_code_source)]
  /\ Samples.parse Samples.broken_source = inl Samples.broken_error
  /\ exists report,
       main_loop Samples.parse Samples.cleandoc
         [("examples/sample_code.py", Samples.sample_code_source);
          ("broken.py", Samples.broken_source);
          ("f.py", Samples.pass_function_source)]
       = ([report], Some (AttributeError "overall_score")).
Proof.
  assert (Forall (fun f => exists t, Samples.parse (snd f) = inr t)
            [("examples/sample_code.py", Samples.sample_code_source)])
    as Hbefore.
  { constructor; [|constructor].
    exists Samples.sample_code_tree. reflexivity. }
  split; [exact Hbefore|]. split; [reflexivity|].
  destruct (main_stops_at_syntax_error Samples.parse Samples.cleandoc
              [("examples/sample_code.py", Samples.sample_code_source)]
              [("f.py", Samples.pass_function_source)]
              "broken.py" Samples.broken_source Samples.broken_error
              Hbefore eq_refl)
    as (reports & Hrun & Hlen & _).
  destruct reports as [|report [|]]; try discriminate Hlen.
  exists report. exact Hrun.
Defined.

(** ** What a line needs to be reported as a secret *)

Lemma count_chars_nonneg (q : ascii -> bool) (s : string) :
  0 <= count_chars q s.
Proof.
  induction s as [|c s IH]; simpl; [lia|]. destruct (q c); lia.
Qed.

Lemma match_here_star (a : Re.atom) (p : Re.pattern) (s : string) :
  Re.match_here (Re.Star a :: p) s
  = Re.match_here p s
    || match s with
       | String c s' => Re.atom_matches a c && Re.match_here (Re.Star a :: p) s'
       | EmptyString => false
       end.
Proof. destruct s; reflexivity. Qed.

Section Required.

Variable sel : Re.atom -> bool.
Variable q : ascii -> bool.
Hypothesis sel_q :
  forall a c, sel a = true -> Re.atom_matches a c = true -> q c = true.

Lemma match_here_required (p : Re.pattern) :
  forall s, Re.match_here p s = true -> required sel p <= count_chars q s.
Proof.
  induction p as [|[a|a] p IH]; intros s.
  - intros _. apply count_chars_nonneg.
  - destruct s as [|c s]; [discriminate|].
    cbn [Re.match_here required count_chars].
    intros H. apply andb_prop in H. destruct H as [Ha Hp].
    specialize (IH s Hp).
    destruct (sel a) eqn:Hsel; [rewrite (sel_q a c Hsel Ha)|destruct (q c)];
      lia.
  - cbn [required]. induction s as [|c s IHs].
    + rewrite match_here_star, orb_false_r. apply IH.
    + rewrite match_here_star. intros H.
      apply orb_prop in H. destruct H as [H|H]; [now apply IH|].
      apply andb_prop in H. destruct H as [_ H]. specialize (IHs H).
      cbn [count_chars]. destruct (q c); lia.
Qed.

Lemma search_required (p : Re.pattern) :
  forall s, Re.search p s = true -> required sel p <= count_chars q s.
Proof.
  induction s as [|c s IH]; cbn [Re.search]; intros H.
  - rewrite orb_false_r in H. now apply match_here_required.
  - apply orb_prop in H. destruct H as [H|H].
    + now apply match_here_required.
    + specialize (IH H). cbn [count_chars]. destruct (q c); lia.
Qed.

End Required.

Lemma equals_atom_matches (a : Re.atom) (c : ascii) :
  is_equals_atom a = true -> Re.atom_matches a c = true -> is_equals c = true.
Proof.
  destruct a as [l| | |]; try discriminate. cbn [is_equals_atom].
  intros Hl. apply Ascii.eqb_eq in Hl. subst l.
  destruct c as [[] [] [] [] [] [] [] []]; vm_compute; congruence.
Qed.

Lemma quote_atom_matches (a : Re.atom) (c : ascii) :
  is_quote_atom a = true -> Re.atom_matches a c = true -> is_quote c = true.
Proof. destruct a; try discriminate. intros _ H. exact H. Qed.

(** Every pattern of the secret scan needs an equals sign and two quote
    characters in the line. *)
Lemma secret_needs (pattern : Re.pattern) (text : string) :
  In pattern secret_patterns -> Re.search pattern text = true ->
  1 <= count_chars is_equals text /\ 2 <= count_chars is_quote text.
Proof.
  intros Hin Hsearch. split.
  - pose proof (search_required is_equals_atom is_equals equals_atom_matches
                  pattern text Hsearch) as H.
    unfold secret_patterns in Hin. cbn [In] in Hin.
    destruct Hin as [<-|[<-|[<-|[<-|[]]]]]; exact H.
  - pose proof (search_required is_quote_atom is_quote quote_atom_matches
                  pattern text Hsearch) as H.
    unfold secret_patterns in Hin. cbn [In] in Hin.
    destruct Hin as [<-|[<-|[<-|[<-|[]]]]]; exact H.
Qed.

(** X12.  The secret scan is textual and needs the assignment of a quoted
    string: a line without an equals sign, or with fewer than two quote
    characters (single or double, they need not match), is never reported
    as a hardcoded secret, whatever name it assigns. *)
Theorem unquoted_line_is_no_secret
    (parse : string -> SyntaxError + node) (cleandoc : string -> string)
    (path source : string) (t : node) :
  parse source = inr t ->
  exists report,
    fst (analyze parse cleandoc source (__init__ path)) = inr report
    /\ forall i text,
         nth_error (PyStr.split_nl source) i = Some text ->
         count_chars is_equals text < 1 \/ count_chars is_quote text < 2 ->
         at_line (1 + Z.of_nat i)
           (of_kind "Hardcoded Secret" (critical (Report.issues report)))
         = [].
Proof.
  intros Hparse. exists (final_report cleandoc path source t).
  split; [now apply analyze_returns|].
  intros i text Hnth Hfew.
  change (critical ?d) with (issues_get d Critical).
  rewrite final_report_bucket, final_hardcoded_secret.
  rewrite (flat_map_ext _ (fun il => secrets_of_line (fst il) (snd il)))
    by (intros [j line]; apply secret_emit_issues).
  rewrite (secrets_of_nth _ 1 i text Hnth).
  unfold secrets_of_line.
  assert (filter (fun pattern => Re.search pattern text) secret_patterns
          = []) as ->; [|reflexivity].
  assert (forall l, (forall p, In p l -> In p secret_patterns) ->
                    filter (fun pattern => Re.search pattern text) l = [])
    as Hnone.
  { induction l as [|p l IH]; intros Hsub; [reflexivity|]. cbn [filter].
    destruct (Re.search p text) eqn:Hp.
    - destruct (secret_needs p text (Hsub p (or_introl eq_refl)) Hp). lia.
    - apply IH. intros p' Hp'. apply Hsub. now right. }
  apply Hnone. auto.
Qed.

Lemma unquoted_line_is_no_secret_witness :
  Samples.parse Samples.sample_code_source = inr Samples.sample_code_tree
  /\ exists report,
       fst (analyze Samples.parse Samples.cleandoc
              Samples.sample_code_source
              (__init__ "examples/sample_code.py")) = inr report
       /\ at_line 4
            (of_kind "Hardcoded Secret" (critical (Report.issues report)))
          = [].
Proof.
  split; [reflexivity|].
  destruct (unquoted_line_is_no_secret Samples.parse Samples.cleandoc
              "examples/sample_code.py" Samples.sample_code_source
              Samples.sample_code_tree eq_refl)
    as (report & Hrun & Hnone).
  exists report. split; [exact Hrun|].
  apply (Hnone 3%nat
           (nth 3 (PyStr.split_nl Samples.sample_code_source) EmptyString)).
  - reflexivity.
  - right. vm_compute. reflexivity.
Defined.

(** ** The files that [main] analyses *)





(** ** Documentation and type-hint coverage *)

(** The percentage tests of [_analyze_maintainability], in whole numbers. *)
Lemma coverage_below (part total percent : Z) :
  0 < total ->
  Qltb (coverage part total) (inject_Z percent)
  = (100 * part <? percent * total).
Proof.
  intros Htotal. unfold Qltb, coverage.
  assert (0 < inject_Z total)%Q as Ht
    by (change 0%Q with (inject_Z 0); now rewrite <- Zlt_Qlt).
  assert (inject_Z percent <= inject_Z part / inject_Z total * 100
          <-> inject_Z (percent * total) <= inject_Z (100 * part))%Q as Hiff.
  { rewrite !inject_Z_mult. change (inject_Z 100) with 100%Q.
    set (P := (inject_Z part / inject_Z total)%Q).
    assert (inject_Z part == P * inject_Z total)%Q as Hp
      by (unfold P; field; lra).
    rewrite Hp. split; intros H; nra. }
  destruct (Z.ltb_spec (100 * part) (percent * total)) as [Hlt|Hge].
  - apply negb_true_iff. apply not_true_iff_false. rewrite Qle_bool_iff, Hiff.
    rewrite <- Zle_Qle. lia.
  - apply negb_false_iff. rewrite Qle_bool_iff, Hiff. rewrite <- Zle_Qle. lia.
Qed.

Lemma low_documentation_count (cleandoc : string -> string) (t : node) :
  low_documentation cleandoc t
  = (0 <? count_if is_FunctionDef (preorder t))
    && (2 * count_if (is_documented cleandoc) (preorder t)
        <? count_if is_FunctionDef (preorder t)).
Proof.
  unfold low_documentation. rewrite doc_counts_count, !count_if_walk.
  destruct (Z.ltb_spec 0 (count_if is_FunctionDef (preorder t)))
    as [Hpos|Hno]; [|reflexivity].
  cbn [andb]. change 50%Q with (inject_Z 50).
  rewrite coverage_below by exact Hpos.
  destruct (Z.ltb_spec (100 * count_if (is_documented cleandoc) (preorder t))
              (50 * count_if is_FunctionDef (preorder t)));
    symmetry; [apply Z.ltb_lt | apply Z.ltb_ge]; lia.
Qed.

Lemma missing_type_hints_count (cleandoc : string -> string) (t : node) :
  missing_type_hints cleandoc t
  = (0 <? count_if is_FunctionDef (preorder t))
    && (10 * count_if is_hinted (preorder t)
        <? 3 * count_if is_FunctionDef (preorder t)).
Proof.
  unfold missing_type_hints.
  rewrite doc_counts_count, hint_count_count, !count_if_walk.
  destruct (Z.ltb_spec 0 (count_if is_FunctionDef (preorder t)))
    as [Hpos|Hno]; [|reflexivity].
  cbn [andb]. change 30%Q with (inject_Z 30).
  rewrite coverage_below by exact Hpos.
  destruct (Z.ltb_spec (100 * count_if is_hinted (preorder t))
              (30 * count_if is_FunctionDef (preorder t)));
    symmetry; [apply Z.ltb_lt | apply Z.ltb_ge]; lia.
Qed.

Lemma final_low_documentation (cleandoc : string -> string)
    (ls : list string) (t : node) :
  issues_of Medium "Low Documentation" (final_findings cleandoc ls t)
  = if low_documentation cleandoc t then
      [low_documentation_issue
         (coverage (count_if (is_documented cleandoc) (preorder t))
            (count_if is_FunctionDef (preorder t)))]
    else [].
Proof.
  split_findings. drop_findings.
  rewrite doc_counts_count, !count_if_walk. cbn [fst snd].
  destruct (low_documentation cleandoc t); reflexivity.
Qed.

Lemma final_missing_type_hints (cleandoc : string -> string)
    (ls : list string) (t : node) :
  issues_of Low "Missing Type Hints" (final_findings cleandoc ls t)
  = if missing_type_hints cleandoc t then
      [missing_type_hints_issue
         (coverage (count_if is_hinted (preorder t))
            (count_if is_FunctionDef (preorder t)))]
    else [].
Proof.
  split_findings. drop_findings.
  rewrite doc_counts_count, hint_count_count, !count_if_walk. cbn [fst snd].
  destruct (missing_type_hints cleandoc t); reflexivity.
Qed.

(** X14.  When the tree has a function definition and fewer than half of
    the function definitions have a docstring, one MEDIUM issue "Low
    Documentation" is filed at line 0 and costs 2.0; when fewer than three
    in ten have a type hint, one LOW issue "Missing Type Hints" is filed at
    line 0 and costs 1.0.  Each message gives the percentage rounded to a
    whole number.  Otherwise neither issue is filed, so the maintainability
    score is never below 7.0. *)
Theorem documentation_and_hint_coverage
    (parse : string -> SyntaxError + node) (cleandoc : string -> string)
    (path source : string) (t : node) :
  parse source = inr t ->
  exists report,
    fst (analyze parse cleandoc source (__init__ path)) = inr report
    /\ let total := count_if is_FunctionDef (preorder t) in
       let documented := count_if (is_documented cleandoc) (preorder t) in
       let hinted := count_if is_hinted (preorder t) in
       let undocumented := (0 <? total) && (2 * documented <? total) in
       let unhinted := (0 <? total) && (10 * hinted <? 3 * total) in
       of_kind "Low Documentation" (medium (Report.issues report))
       = (if undocumented
          then [low_documentation_issue (coverage documented total)]
          else [])
       /\ of_kind "Missing Type Hints" (low (Report.issues report))
          = (if unhinted
             then [missing_type_hints_issue (coverage hinted total)]
             else [])
       /\ (maintainability (Report.category_scores report)
           == 10.0 - (if undocumented then 2.0 else 0)
              - (if unhinted then 1.0 else 0))%Q
       /\ (7.0 <= maintainability (Report.category_scores report))%Q.
Proof.
  intros Hparse. exists (final_report cleandoc path source t).
  split; [now apply analyze_returns|]. cbn zeta.
  assert (maintainability
            (Report.category_scores (final_report cleandoc path source t))
          == 10.0
             - (if low_documentation cleandoc t then 2.0 else 0)
             - (if missing_type_hints cleandoc t then 1.0 else 0))%Q
    as Hscore.
  { unfold final_report.
    cbn [Report.category_scores final_scores maintainability].
    unfold maintainability_raw, max0.
    destruct (low_documentation cleandoc t),
      (missing_type_hints cleandoc t); vm_compute; reflexivity. }
  rewrite <- low_documentation_count,
    <- (missing_type_hints_count cleandoc).
  split.
  { change (medium ?d) with (issues_get d Medium).
    rewrite final_report_bucket. apply final_low_documentation. }
  split.
  { change (low ?d) with (issues_get d Low).
    rewrite final_report_bucket. apply final_missing_type_hints. }
  split; [exact Hscore|].
  rewrite Hscore.
  destruct (low_documentation cleandoc t),
    (missing_type_hints cleandoc t); vm_compute; discriminate.
Qed.

Lemma documentation_and_hint_coverage_witness :
  Samples.parse Samples.sample_code_source = inr Samples.sample_code_tree
  /\ exists report,
       fst (analyze Samples.parse Samples.cleandoc
              Samples.sample_code_source
              (__init__ "examples/sample_code.py")) = inr report
       /\ (7.0 <= maintainability (Report.category_scores report))%Q.
Proof.
  split; [reflexivity|].
  destruct (documentation_and_hint_coverage Samples.parse Samples.cleandoc
              "examples/sample_code.py" Samples.sample_code_source
              Samples.sample_code_tree eq_refl)
    as (report & Hrun & _ & _ & _ & Hle).
  exists report. split; [exact Hrun | exact Hle].
Defined.

(** ** A second call of [analyze] on the same object *)



Lemma structure_metrics_lengths (t : node) (m m' : Metrics) :
  max_function_length m = max_function_length m' ->
  avg_function_length m = avg_function_length m' ->
  max_function_length (structure_metrics t m)
  = max_function_length (structure_metrics t m')
  /\ avg_function_length (structure_metrics t m)
     = avg_function_length (structure_metrics t m').
Proof.
  unfold structure_metrics. destruct (snd _); simpl; auto.
Qed.





(** ** The overall score among the category scores *)

Local Open Scope Q_scope.

Ltac each_category H :=
  pose proof (H Structure); pose proof (H ErrorHandling);
  pose proof (H Performance); pose proof (H Security);
  pose proof (H Maintainability); pose proof (H BestPractices);
  cbn [scores_get] in *.

(** The six weights of [_calculate_scores] are positive and add up to
    one. *)
Lemma weighted_sum_ge (s : Scores) (lo : Q) :
  (forall c, lo <= scores_get s c) -> lo <= weighted_sum s.
Proof. intros H. unfold weighted_sum. each_category H. lra. Qed.

Lemma weighted_sum_le (s : Scores) (hi : Q) :
  (forall c, scores_get s c <= hi) -> weighted_sum s <= hi.
Proof. intros H. unfold weighted_sum. each_category H. lra. Qed.

(** X16.  The overall score that [_calculate_scores] stores is a weighted
    mean: it is never below the lowest category score of the report and
    never above the highest, and when the six category scores are equal it
    is that score. *)
Theorem overall_score_is_a_mean
    (parse : string -> SyntaxError + node) (cleandoc : string -> string)
    (path source : string) (t : node) :
  parse source = inr t ->
  exists report self' overall,
    analyze parse cleandoc source (__init__ path) = (inr report, self')
    /\ overall_score self' = Some overall
    /\ (forall lo,
           (forall c, lo <= scores_get (Report.category_scores report) c) ->
           lo <= overall)
    /\ (forall hi,
           (forall c, scores_get (Report.category_scores report) c <= hi) ->
           overall <= hi)
    /\ (forall v,
           (forall c, scores_get (Report.category_scores report) c == v) ->
           overall == v).
Proof.
  intros Hparse.
  exists (final_report cleandoc path source t),
    (final_state cleandoc path source t),
    (weighted_sum (final_scores cleandoc (PyStr.split_nl source) t)).
  split; [now apply analyze_parsed|]. split; [reflexivity|].
  unfold final_report. cbn [Report.category_scores].
  set (s := final_scores cleandoc (PyStr.split_nl source) t).
  split; [intros lo; apply weighted_sum_ge|].
  split; [intros hi; apply weighted_sum_le|].
  intros v Hv. apply Qle_antisym.
  - apply weighted_sum_le. intros c. rewrite (Hv c). apply Qle_refl.
  - apply weighted_sum_ge. intros c. rewrite (Hv c). apply Qle_refl.
Qed.

Lemma overall_score_is_a_mean_witness :
  Samples.parse Samples.sample_code_source = inr Samples.sample_code_tree
  /\ exists report self' overall,
       analyze Samples.parse Samples.cleandoc Samples.sample_code_source
         (__init__ "examples/sample_code.py") = (inr report, self')
       /\ overall_score self' = Some overall
       /\ 7.0 <= overall.
Proof.
  split; [reflexivity|].
  destruct (overall_score_is_a_mean Samples.parse Samples.cleandoc
              "examples/sample_code.py" Samples.sample_code_source
              Samples.sample_code_tree eq_refl)
    as (report & self' & overall & Hrun & Hoverall & Hlo & _).
  exists report, self', overall. split; [exact Hrun|].
  split; [exact Hoverall|].
  apply Hlo. revert Hrun. vm_compute. intros [= <- _].
  intros c; destruct c; discriminate.
Defined.

Local Close Scope Q_scope.
